(** * AddEmailApp: the contact allocation run of [app.py]

    A shallow embedding of [Add-Email-App/app.py] and the properties of
    its allocation run ([process_contacts]).

    - Python [str] values are [string]s whose characters stand for the
      code points below 256.
    - A row [dict] is a [gmap string string]; [d.get(k, "")] is [Py.get].
    - The row dicts are objects that [process_contacts] mutates in place
      and keeps in several lists at once.  They live in a [heap], a list
      indexed by the rank at which [fetch_sheet_data] created them, and
      [rows], [unprocessed] and [updated_rows_source] hold references
      (indices into the heap).  [processed_rows_data] holds fresh lists
      of strings, as in the source.
    - [allocations] is the list [allocations.items()], in the order of
      the dict.
    - The Google Sheets service is a finite map from (spreadsheet, sheet)
      to the grid of its columns A..F; a call on a sheet that does not
      exist raises.
    - BigMailer, the network and the clock are outside the program: they
      are the class [Externals], and every property is stated for all of
      its instances.
    - An integer of Python is a [Z]; indices and lengths are [nat].
    - A [while] is a function on a fuel that bounds its turns; the fuel
      given is shown to be enough. *)

From Stdlib Require Import ZArith Ascii String.
From stdpp Require Import base option list gmap strings pretty.

Local Open Scope string_scope.
Local Open Scope list_scope.
Local Open Scope nat_scope.

(** ** Text *)

Module Py.

(** [str.isspace] on the code points below 256. *)
Definition isspace (c : ascii) : bool :=
  let n := nat_of_ascii c in
  Nat.leb 9 n && Nat.leb n 13 || Nat.leb 28 n && Nat.leb n 32
  || Nat.eqb n 133 || Nat.eqb n 160.

Fixpoint lstrip (s : string) : string :=
  match s with
  | String c s' => if isspace c then lstrip s' else s
  | EmptyString => EmptyString
  end.

Definition rstrip (s : string) : string :=
  String.rev (lstrip (String.rev s)).

(** [s.strip()] *)
Definition strip (s : string) : string := rstrip (lstrip s).

(** [s.startswith(p)] *)
Definition startswith (s p : string) : bool := String.prefix p s.

(** [bool(s)] for a string: the empty string is falsy. *)
Definition truthy (s : string) : bool :=
  match s with EmptyString => false | String _ _ => true end.

(** [d.get(k, "")] *)
Definition get (d : gmap string string) (k : string) : string :=
  default "" (d !! k).

(** [dict(zip(ks, vs))]: a later pair overrides an earlier one with
    the same key. *)
Definition dict_zip (ks vs : list string) : gmap string string :=
  foldl (λ d kv, <[kv.1 := kv.2]> d) ∅ (zip ks vs).

End Py.

(** ** Data *)

(** A row dict, and a reference to one. *)
Abbreviation Row := (gmap string string).
Abbreviation Ref := nat (only parsing).

(** The 2D value lists exchanged with the Sheets service. *)
Abbreviation Grid := (list (list string)).

(** The spreadsheets behind the service: (spreadsheet id, sheet name) to
    the values of the columns A..F. *)
Abbreviation Sheets := (gmap (string * string) Grid).

(** The JSON body and query string of the upsert request. *)
Record Request := {
  url : string;
  validate_param : string;
  x_api_key : string;
  email : string;
  list_ids : list string;
  field_values : list (string * string);
  unsubscribe_all : bool
}.

Record Response := {
  status_code : Z;
  text : string
}.

(** The exceptions that can leave [upsert_contact_in_bigmailer]. *)
Inductive Exn :=
| UpsertFailed (code : Z) (body : string)
    (* [Exception(f"Upsert failed with {status_code}: {text}")] *)
| LibraryError (msg : string).
    (* raised inside [requests] or by [response.json()] *)

(** [str(e)] *)
Definition str (e : Exn) : string :=
  match e with
  | UpsertFailed code body =>
      "Upsert failed with " +:+ pretty code +:+ ": " +:+ body
  | LibraryError msg => msg
  end.

(** What lies outside the program. *)
Class Externals := {
  World : Type;
  (** [requests.post(url, headers=, params=, json=)]: a response, or the
      message of the exception it raises. *)
  requests_post : Request → World → (Response + string) * World;
  (** [datetime.datetime.now().strftime('%Y-%m-%d')] *)
  strftime_now : World → string;
  Json : Type;
  (** [response.json()]: the decoded body, or the message of the
      exception it raises. *)
  response_json : Response → Json + string
}.

(** The lines [st.write] prints. *)
Inductive Message :=
| NoRowsFound (sheet : string)
| Allocating (count : Z) (list_id : string)
| SkippedRow
| Added (email list_id : string)
| Failed (email error_msg : string)
| Appended (n : nat) (sheet : string)
| AllDone.

(** How a call of [process_contacts] ends: [return], or an error of the
    Sheets service that nothing catches. *)
Inductive Completion :=
| Returned
| SheetsError (spreadsheet_id sheet_name : string).

(** ** The program *)

Section Program.
Context `{Externals}.

(** Everything a call can read or change: the spreadsheets, the world
    behind [requests] and the clock, and two histories, of the requests
    sent and of the lines printed. *)
Record State := {
  sheets : Sheets;
  world : World;
  posted : list Request;
  written : list Message
}.

Definition set_sheets (g : Sheets) (s : State) : State :=
  {| sheets := g; world := world s;
     posted := posted s; written := written s |}.

(** [st.write(m)] *)
Definition st_write (m : Message) (s : State) : State :=
  {| sheets := sheets s; world := world s;
     posted := posted s; written := written s ++ [m] |}.

(** *** The Sheets service

    [values().get], [values().clear], [values().update] and
    [values().append] on the range of a sheet; each raises when the
    sheet does not exist ([None]). *)

Definition values_get (spreadsheet_id sheet_name : string) (s : State)
  : option Grid :=
  sheets s !! (spreadsheet_id, sheet_name).

Definition values_clear (spreadsheet_id sheet_name : string) (s : State)
  : option State :=
  _ ← sheets s !! (spreadsheet_id, sheet_name);
  Some (set_sheets (<[(spreadsheet_id, sheet_name) := []]> (sheets s)) s).

(** Writing [values] from A1 on: the cells they cover are replaced, the
    others stay. *)
Fixpoint overlay_row (new old : list string) : list string :=
  match new, old with
  | [], _ => old
  | c :: new', [] => c :: new'
  | c :: new', _ :: old' => c :: overlay_row new' old'
  end.

Fixpoint overlay (values old : Grid) : Grid :=
  match values, old with
  | [], _ => old
  | r :: values', [] => r :: values'
  | r :: values', o :: old' => overlay_row r o :: overlay values' old'
  end.

Definition values_update (spreadsheet_id sheet_name : string)
    (values : Grid) (s : State) : option State :=
  old ← sheets s !! (spreadsheet_id, sheet_name);
  Some (set_sheets
          (<[(spreadsheet_id, sheet_name) := overlay values old]> (sheets s))
          s).

Definition values_append (spreadsheet_id sheet_name : string)
    (values : Grid) (s : State) : option State :=
  old ← sheets s !! (spreadsheet_id, sheet_name);
  Some (set_sheets
          (<[(spreadsheet_id, sheet_name) := old ++ values]> (sheets s))
          s).

(** *** [fetch_sheet_data] *)

Definition fetch_sheet_data (spreadsheet_id sheet_name : string) (s : State)
  : option (list string * list Row) :=
  values ← values_get spreadsheet_id sheet_name s;
  match values with
  | [] => Some ([], [])
  | headers :: data_rows =>
      Some (headers,
            (λ row_data,
               Py.dict_zip headers
                 (row_data
                  ++ replicate (length headers - length row_data) ""))
            <$> data_rows)
  end.

(** *** [rewrite_sheet_data] *)

Definition rewrite_sheet_data (spreadsheet_id sheet_name : string)
    (headers : list string) (data : Grid) (s : State) : option State :=
  let all_values := [headers] ++ data in
  s ← values_clear spreadsheet_id sheet_name s;
  values_update spreadsheet_id sheet_name all_values s.

(** *** [append_to_sheet] *)

Definition append_to_sheet (spreadsheet_id sheet_name : string)
    (data : Grid) (s : State) : option State :=
  values_append spreadsheet_id sheet_name data s.

(** *** [upsert_contact_in_bigmailer] *)

(** [str(b).lower()] *)
Definition lower_str_bool (b : bool) : string :=
  if b then "true" else "false".

(** The request of lines 92-104: [url], [params], [headers], [data]. *)
Definition upsert_request (email brand_id api_key list_id : string)
    (field_values : list (string * string))
    (validate unsubscribe_all : bool) : Request :=
  {| url := "https://api.bigmailer.io/v1/brands/" +:+ brand_id
            +:+ "/contacts/upsert";
     validate_param := lower_str_bool validate;
     x_api_key := api_key;
     email := email;
     list_ids := [list_id];
     field_values := field_values;
     unsubscribe_all := unsubscribe_all |}.

Definition upsert_contact_in_bigmailer
    (email brand_id api_key list_id : string)
    (field_values : option (list (string * string)))
    (validate unsubscribe_all : bool) (s : State) : (Json + Exn) * State :=
  let field_values := default [] field_values in
  let req := upsert_request email brand_id api_key list_id field_values
               validate unsubscribe_all in
  let '(r, w) := requests_post req (world s) in
  let s := {| sheets := sheets s; world := w;
              posted := posted s ++ [req]; written := written s |} in
  match r with
  | inr msg => (inr (LibraryError msg), s)
  | inl response =>
      if (status_code response =? 200)%Z then
        match response_json response with
        | inl j => (inl j, s)
        | inr msg => (inr (LibraryError msg), s)
        end
      else
        (inr (UpsertFailed (status_code response) (text response)), s)
  end.

(** *** [process_contacts] *)

(** The local variables of [process_contacts] that its loops change.
    [heap] holds the row dicts; [updated_rows_source] is a list of
    references to them, [processed_rows_data] a list of fresh lists. *)
Record Locals := {
  heap : list Row;
  idx : nat;
  allocated : Z;
  processed_rows_data : Grid;
  updated_rows_source : list Ref
}.

(** [[d.get(h, "") for h in headers]] *)
Definition row_in_order (headers : list string) (d : Row) : list string :=
  Py.get d <$> headers.

(** [row_dict["Status"] = msg], on the dict behind the reference. *)
Definition set_status (msg : string) (row_dict : Ref) (hp : list Row)
  : list Row :=
  alter (<["Status" := msg]>) row_dict hp.

(** The rows that are not already "Successfully added...", lines
    134-137: the references of [rows] in order, filtered. *)
Definition unprocessed_of (hp : list Row) : list Ref :=
  filter (λ r, ¬ Py.startswith (Py.get (hp !!! r) "Status")
                   "Successfully added")
         (seq 0 (length hp)).

Section Loops.
Variables (headers : list string) (unprocessed : list Ref).
Variables (brand_id api_key : string).

(** [field_values], lines 163-169. *)
Definition field_values_of (first_name last_name tags : string)
  : list (string * string) :=
  (if Py.truthy first_name then [("first_name", first_name)] else [])
  ++ (if Py.truthy last_name then [("last_name", last_name)] else [])
  ++ (if Py.truthy tags then [("tags", tags)] else []).

(** One turn of the [while] of line 148: lines 149-191.  The
    condition of the loop keeps [idx] in range, and a reference of
    [unprocessed] is one of the heap, so the total lookups [!!!]
    never fall back on their default. *)
Definition loop_body (list_id : string) (ls : Locals * State)
  : Locals * State :=
  let '(l, s) := ls in
  let row_dict := unprocessed !!! idx l in
  let idx' := S (idx l) in
  let email := Py.strip (Py.get (heap l !!! row_dict) "Email") in
  if negb (Py.truthy email) then
    (* [continue]: [allocated] is not incremented *)
    ({| heap := set_status "Skipped: No Email" row_dict (heap l);
        idx := idx';
        allocated := allocated l;
        processed_rows_data := processed_rows_data l;
        updated_rows_source := updated_rows_source l ++ [row_dict] |},
     st_write SkippedRow s)
  else
    let first_name :=
      Py.strip (Py.get (heap l !!! row_dict) "First Name") in
    let last_name :=
      Py.strip (Py.get (heap l !!! row_dict) "Last Name") in
    let tags := Py.strip (Py.get (heap l !!! row_dict) "Tags") in
    let field_values := field_values_of first_name last_name tags in
    match upsert_contact_in_bigmailer email brand_id api_key list_id
            (Some field_values) false false s with
    | (inl _, s) =>
        let success_msg :=
          "Successfully added on " +:+ strftime_now (world s)
          +:+ " to " +:+ list_id in
        let hp := set_status success_msg row_dict (heap l) in
        let row := row_in_order headers (hp !!! row_dict) in
        ({| heap := hp;
            idx := idx';
            allocated := (allocated l + 1)%Z;
            processed_rows_data := processed_rows_data l ++ [row];
            updated_rows_source := updated_rows_source l |},
         st_write (Added email list_id) s)
    | (inr e, s) =>
        let error_msg := "Error: " +:+ str e in
        ({| heap := set_status error_msg row_dict (heap l);
            idx := idx';
            allocated := (allocated l + 1)%Z;
            processed_rows_data := processed_rows_data l;
            updated_rows_source := updated_rows_source l ++ [row_dict] |},
         st_write (Failed email error_msg) s)
    end.

(** [while allocated < count and idx < len(unprocessed)], line 148.
    Every turn moves [idx] forward, so [len(unprocessed) - idx]
    turns are enough ([while_allocated_exit]). *)
Fixpoint while_allocated (fuel : nat) (list_id : string) (count : Z)
    (ls : Locals * State) : Locals * State :=
  match fuel with
  | 0 => ls
  | S fuel =>
      if bool_decide (allocated ls.1 < count)%Z
         && bool_decide (idx ls.1 < length unprocessed)
      then while_allocated fuel list_id count (loop_body list_id ls)
      else ls
  end.

(** [allocated = 0], line 146. *)
Definition reset_allocated (l : Locals) : Locals :=
  {| heap := heap l; idx := idx l; allocated := 0;
     processed_rows_data := processed_rows_data l;
     updated_rows_source := updated_rows_source l |}.

(** One turn of the [for] of line 144: lines 145-191. *)
Definition for_body (ls : Locals * State) (item : string * Z)
  : Locals * State :=
  let '(list_id, count) := item in
  let '(l, s) := ls in
  let s := st_write (Allocating count list_id) s in
  let l := reset_allocated l in
  while_allocated (length unprocessed - idx l) list_id count (l, s).

(** [for list_id, count in allocations.items()], line 144. *)
Definition for_allocations (allocations : list (string * Z))
    (ls : Locals * State) : Locals * State :=
  foldl for_body ls allocations.

(** One turn of the [while] of line 194: lines 195-196. *)
Definition leftover_body (l : Locals) : Locals :=
  {| heap := heap l; idx := S (idx l); allocated := allocated l;
     processed_rows_data := processed_rows_data l;
     updated_rows_source :=
       updated_rows_source l ++ [unprocessed !!! idx l] |}.

(** [while idx < len(unprocessed)], line 194. *)
Fixpoint while_leftover (fuel : nat) (l : Locals) : Locals :=
  match fuel with
  | 0 => l
  | S fuel =>
      if bool_decide (idx l < length unprocessed)
      then while_leftover fuel (leftover_body l)
      else l
  end.
End Loops.

(** Lines 134-196 of [process_contacts]: from the rows read to the two
    output lists. *)
Definition allocate (headers : list string) (rows : list Row)
    (brand_id api_key : string) (allocations : list (string * Z))
    (s : State) : Locals * State :=
  let unprocessed := unprocessed_of rows in
  let l := {| heap := rows; idx := 0; allocated := 0;
              processed_rows_data := []; updated_rows_source := [] |} in
  let '(l, s) :=
    for_allocations headers unprocessed brand_id api_key allocations (l, s) in
  (while_leftover unprocessed (length unprocessed - idx l) l, s).

(** [new_source_data], lines 199-202. *)
Definition new_source_data (headers : list string) (l : Locals) : Grid :=
  (λ rd, row_in_order headers (heap l !!! rd)) <$> updated_rows_source l.

Definition process_contacts
    (spreadsheet_id source_sheet_name target_sheet_name : string)
    (brand_id api_key : string) (allocations : list (string * Z))
    (s : State) : Completion * State :=
  match fetch_sheet_data spreadsheet_id source_sheet_name s with
  | None => (SheetsError spreadsheet_id source_sheet_name, s)
  | Some (headers, rows) =>
      match rows with
      | [] => (Returned, st_write (NoRowsFound source_sheet_name) s)
      | _ :: _ =>
          let '(l, s) :=
            allocate headers rows brand_id api_key allocations s in
          match rewrite_sheet_data spreadsheet_id source_sheet_name headers
                  (new_source_data headers l) s with
          | None => (SheetsError spreadsheet_id source_sheet_name, s)
          | Some s =>
              match processed_rows_data l with
              | [] => (Returned, st_write AllDone s)
              | _ :: _ =>
                  match append_to_sheet spreadsheet_id target_sheet_name
                          (processed_rows_data l) s with
                  | None => (SheetsError spreadsheet_id target_sheet_name, s)
                  | Some s =>
                      let s :=
                        st_write (Appended (length (processed_rows_data l))
                                    target_sheet_name) s in
                      (Returned, st_write AllDone s)
                  end
              end
          end
      end
  end.

End Program.

(** ** Vocabulary of the properties *)

(** [Interleave l1 l2 l]: every element of [l] goes to exactly one of
    [l1] and [l2], and both keep the order of [l]. *)
Inductive Interleave {A} : list A → list A → list A → Prop :=
| interleave_nil : Interleave [] [] []
| interleave_left x l1 l2 l :
    Interleave l1 l2 l → Interleave (x :: l1) l2 (x :: l)
| interleave_right x l1 l2 l :
    Interleave l1 l2 l → Interleave l1 (x :: l2) (x :: l).

(** The rows the filter of lines 134-137 leaves out. *)
Definition excluded_of (hp : list Row) : list Ref :=
  filter (λ r, Py.startswith (Py.get (hp !!! r) "Status") "Successfully added")
         (seq 0 (length hp)).

(** The trimmed e-mail address of the row behind a reference. *)
Definition email_of (hp : list Row) (r : Ref) : string :=
  Py.strip (Py.get (hp !!! r) "Email").

(** The three ways a row can have been changed, from [hp0] to [hp]. *)
Definition added_row (hp0 hp : list Row) (r : Ref) : Prop :=
  email_of hp0 r ≠ ""
  ∧ ∃ date list_id,
      hp !!! r =
        <["Status" := "Successfully added on " +:+ date +:+ " to " +:+ list_id]>
          (hp0 !!! r).

Definition skipped_row (hp0 hp : list Row) (r : Ref) : Prop :=
  email_of hp0 r = ""
  ∧ hp !!! r = <["Status" := "Skipped: No Email"]> (hp0 !!! r).

Definition error_row (hp0 hp : list Row) (r : Ref) : Prop :=
  email_of hp0 r ≠ ""
  ∧ ∃ e, hp !!! r = <["Status" := "Error: " +:+ str e]> (hp0 !!! r).

(** The request that [process_contacts] sends for a row. *)
Definition request_for (brand_id api_key list_id : string) (d : Row)
  : Request :=
  upsert_request (Py.strip (Py.get d "Email")) brand_id api_key list_id
    (field_values_of (Py.strip (Py.get d "First Name"))
       (Py.strip (Py.get d "Last Name")) (Py.strip (Py.get d "Tags")))
    false false.

Section Relations.
Context `{Externals}.
Variables (headers : list string) (unprocessed : list Ref).

(** What lines 107-110 make of the reply of [requests.post]. *)
Definition answer (reply : Response + string) : Json + Exn :=
  match reply with
  | inr msg => inr (LibraryError msg)
  | inl response =>
      if (status_code response =? 200)%Z then
        match response_json response with
        | inl j => inl j
        | inr msg => inr (LibraryError msg)
        end
      else inr (UpsertFailed (status_code response) (text response))
  end.

(** One turn of the inner loop as a relation between the state before
    and the state after, whatever the outcome: the three branches of
    lines 153-189. *)
Inductive Turn (list_id : string) (l : Locals) (s : State)
  : Locals → State → Prop :=
| turn_skip s' :
    Py.strip (Py.get (heap l !!! (unprocessed !!! idx l)) "Email") = "" →
    posted s' = posted s → sheets s' = sheets s →
    Turn list_id l s
      {| heap := set_status "Skipped: No Email" (unprocessed !!! idx l)
                   (heap l);
         idx := S (idx l); allocated := allocated l;
         processed_rows_data := processed_rows_data l;
         updated_rows_source :=
           updated_rows_source l ++ [unprocessed !!! idx l] |} s'
| turn_added s' req date :
    Py.strip (Py.get (heap l !!! (unprocessed !!! idx l)) "Email") ≠ "" →
    posted s' = posted s ++ [req] → sheets s' = sheets s →
    email req =
      Py.strip (Py.get (heap l !!! (unprocessed !!! idx l)) "Email") →
    list_ids req = [list_id] →
    let hp := set_status
                ("Successfully added on " +:+ date +:+ " to " +:+ list_id)
                (unprocessed !!! idx l) (heap l) in
    Turn list_id l s
      {| heap := hp;
         idx := S (idx l); allocated := (allocated l + 1)%Z;
         processed_rows_data :=
           processed_rows_data l
           ++ [row_in_order headers (hp !!! (unprocessed !!! idx l))];
         updated_rows_source := updated_rows_source l |} s'
| turn_error s' req e :
    Py.strip (Py.get (heap l !!! (unprocessed !!! idx l)) "Email") ≠ "" →
    posted s' = posted s ++ [req] → sheets s' = sheets s →
    email req =
      Py.strip (Py.get (heap l !!! (unprocessed !!! idx l)) "Email") →
    list_ids req = [list_id] →
    Turn list_id l s
      {| heap := set_status ("Error: " +:+ str e) (unprocessed !!! idx l)
                   (heap l);
         idx := S (idx l); allocated := (allocated l + 1)%Z;
         processed_rows_data := processed_rows_data l;
         updated_rows_source :=
           updated_rows_source l ++ [unprocessed !!! idx l] |} s'.

(** The state of the loops of lines 144-191 when the cursor is at
    [idx l], for a run started with the heap [heap0] in the state [s0]:
    the rows before the cursor have been routed, each to one output, and
    the others are as they were read. *)
Record Inv (heap0 : list Row) (s0 : State) (l : Locals) (s : State)
  : Prop := {
  inv_idx : idx l ≤ length unprocessed;
  inv_length : length (heap l) = length heap0;
  inv_untouched :
    ∀ r, r ∉ take (idx l) unprocessed → heap l !!! r = heap0 !!! r;
  inv_sheets : sheets s = sheets s0;
  inv_routed :
    ∃ prefs reqs,
      processed_rows_data l
      = (λ r, row_in_order headers (heap l !!! r)) <$> prefs
      ∧ Interleave prefs (updated_rows_source l) (take (idx l) unprocessed)
      ∧ Forall (added_row heap0 (heap l)) prefs
      ∧ Forall (λ r, skipped_row heap0 (heap l) r
                     ∨ error_row heap0 (heap l) r)
          (updated_rows_source l)
      ∧ posted s = posted s0 ++ reqs
      ∧ email <$> reqs
        = filter (λ e, e ≠ "") (email_of heap0 <$> take (idx l) unprocessed)
}.

(** The turns of one inner loop, started at [l0] with [allocated = 0]:
    the rows taken since are [unprocessed[idx l0 : idx l]], and
    [allocated] counts those of them that were sent to BigMailer. *)
Record Counted (list_id : string) (count : Z) (l0 : Locals) (s0 : State)
    (l : Locals) (s : State) : Prop := {
  counted_idx : idx l0 ≤ idx l;
  counted_email : ∀ r, email_of (heap l) r = email_of (heap l0) r;
  counted_posted :
    ∃ reqs,
      posted s = posted s0 ++ reqs
      ∧ email <$> reqs
        = filter (λ e, e ≠ "")
            (email_of (heap l0)
             <$> take (idx l - idx l0) (drop (idx l0) unprocessed))
      ∧ Forall (λ q, list_ids q = [list_id]) reqs
      ∧ allocated l = Z.of_nat (length reqs)
      ∧ (Z.of_nat (length reqs) ≤ Z.max 0 count)%Z
}.
End Relations.

(** The state at line 193, after the [for]. *)
Definition after_for `{Externals} (headers : list string) (rows : list Row)
    (brand_id api_key : string) (allocations : list (string * Z)) (s : State)
  : Locals * State :=
  for_allocations headers (unprocessed_of rows) brand_id api_key allocations
    ({| heap := rows; idx := 0; allocated := 0;
        processed_rows_data := []; updated_rows_source := [] |}, s).

(** ** Worlds to run the program in *)

Module Demo.

(** BigMailer answers every request with 200 and a JSON body. *)
Definition always_ok : Externals :=
  {| World := unit;
     requests_post := λ _ w, (inl {| status_code := 200; text := "{}" |}, w);
     strftime_now := λ _, "2024-05-01";
     Json := unit;
     response_json := λ _, inl () |}.

(** BigMailer answers every request with 201 and a JSON body. *)
Definition always_created : Externals :=
  {| World := unit;
     requests_post := λ _ w, (inl {| status_code := 201; text := "{}" |}, w);
     strftime_now := λ _, "2024-05-01";
     Json := unit;
     response_json := λ _, inl () |}.

(** The world counts the requests; the second one gets a 500. *)
Definition second_fails : Externals :=
  {| World := nat;
     requests_post := λ _ n,
       (inl (if Nat.eqb n 1
             then {| status_code := 500; text := "oops" |}
             else {| status_code := 200; text := "{}" |}), S n);
     strftime_now := λ _, "2024-05-01";
     Json := unit;
     response_json := λ _, inl () |}.

(** A state with the given sheets, before any request or output. *)
Definition start (E : Externals) (g : Sheets) (w : @World E) : @State E :=
  @Build_State E g w [] [].

(** The locals at line 141. *)
Definition locals_141 `{Externals} (rows : list Row) : Locals :=
  {| heap := rows; idx := 0; allocated := 0;
     processed_rows_data := []; updated_rows_source := [] |}.

(** A spreadsheet whose source sheet has one row already added and one
    row to do, and whose target sheet has its headers only. *)
Definition two_sheets : Sheets :=
  {[ ("doc", "ContactsToAdd") :=
       [ ["Email"; "Status"];
         ["a@x.com"; "Successfully added on 2024-04-30 to L"];
         ["b@x.com"; ""] ];
     ("doc", "ProcessedContacts") := [ ["Email"; "Status"] ] ]}.

End Demo.

(** ** [main]

    [st.secrets] is a record of the keys that [main] reads; a missing
    key, which raises in the source, is not modelled.  The widgets return
    what the user entered ([Inputs]).  The elements that [main] itself
    puts on the page are returned as a list; the lines of
    [process_contacts] come after them, in [written].  Of
    [get_gsheet_service_from_secrets] only the outcome is modelled:
    whether it returns a service or raises. *)

(** [st.secrets], with the keys that [main] reads. *)
Record Secrets := {
  BRAND_ID : string;
  API_KEY : string;
  MAIN : string;
  WARMING1 : string;
  WARMING2 : string;
  WARMING3 : string;
  WARMING4 : string;
  WARMING5 : string;
  SPREADSHEET_ID : string
}.

(** What the user has entered when the script runs: the values of the
    six [st.number_input] and whether the button was pressed. *)
Record Inputs := {
  main_count : Z;
  w1_count : Z;
  w2_count : Z;
  w3_count : Z;
  w4_count : Z;
  w5_count : Z;
  run_allocation : bool
}.

(** The bounds [min_value=0, max_value=9999] of the number inputs. *)
Definition in_bounds (inputs : Inputs) : Prop :=
  Forall (λ c, 0 ≤ c ≤ 9999)%Z
    [main_count inputs; w1_count inputs; w2_count inputs; w3_count inputs;
     w4_count inputs; w5_count inputs].

(** [d[k] = v] on a dict kept as the list of its items: the value of a
    key that is there is replaced where it stands, a new key goes to the
    end. *)
Fixpoint dict_set (d : list (string * Z)) (k : string) (v : Z)
  : list (string * Z) :=
  match d with
  | [] => [(k, v)]
  | (k', v') :: d' =>
      if decide (k' = k) then (k', v) :: d' else (k', v') :: dict_set d' k v
  end.

(** A dict display [{k1: v1, k2: v2, ...}], as [items()] lists it. *)
Definition dict_literal (items : list (string * Z)) : list (string * Z) :=
  foldl (λ d kv, dict_set d kv.1 kv.2) [] items.

(** The key-value pairs of lines 260-267, as written. *)
Definition allocation_pairs (secrets : Secrets) (inputs : Inputs)
  : list (string * Z) :=
  [ (MAIN secrets, main_count inputs);
    (WARMING1 secrets, w1_count inputs);
    (WARMING2 secrets, w2_count inputs);
    (WARMING3 secrets, w3_count inputs);
    (WARMING4 secrets, w4_count inputs);
    (WARMING5 secrets, w5_count inputs) ].

(** [allocations], lines 260-267. *)
Definition main_allocations (secrets : Secrets) (inputs : Inputs)
  : list (string * Z) :=
  dict_literal (allocation_pairs secrets inputs).

(** [total_requested], line 255. *)
Definition total_requested (inputs : Inputs) : Z :=
  (main_count inputs + w1_count inputs + w2_count inputs + w3_count inputs
   + w4_count inputs + w5_count inputs)%Z.

(** What [main] puts on the page itself. *)
Inductive Element :=
| Title (body : string)
| Markdown (body : string)
| Subheader (body : string)
| NumberInput (label : string) (value : Z)
| Write (body : string)
| Button (label : string).

(** How [main] ends: [get_gsheet_service_from_secrets] raised, or it got
    to its end or to the end of [process_contacts]. *)
Inductive MainEnd :=
| ServiceError
| Ended (c : Completion).

Section Main.
Context `{Externals}.

(** [main].  [service_built] tells whether
    [get_gsheet_service_from_secrets] returns a service. *)
Definition main (secrets : Secrets) (service_built : bool) (inputs : Inputs)
    (s : State) : list Element * MainEnd * State :=
  let page := [Title "BigMailer Multi-List Allocation (Secrets-based)"] in
  let brand_id := BRAND_ID secrets in
  let api_key := API_KEY secrets in
  let spreadsheet_id := SPREADSHEET_ID secrets in
  let source_sheet_name := "ContactsToAdd" in
  let target_sheet_name := "ProcessedContacts" in
  let sheet_url :=
    "https://docs.google.com/spreadsheets/d/" +:+ spreadsheet_id +:+ "/edit" in
  let page :=
    page ++ [Markdown ("[Open the Google Sheet](" +:+ sheet_url +:+ ")")] in
  if negb service_built then (page, ServiceError, s)
  else
    let page :=
      page
      ++ [ Subheader "Contacts Allocation";
           NumberInput ("Contacts for MAIN list (" +:+ MAIN secrets +:+ ")")
             (main_count inputs);
           NumberInput ("Contacts for WARMING1 (" +:+ WARMING1 secrets +:+ ")")
             (w1_count inputs);
           NumberInput ("Contacts for WARMING2 (" +:+ WARMING2 secrets +:+ ")")
             (w2_count inputs);
           NumberInput ("Contacts for WARMING3 (" +:+ WARMING3 secrets +:+ ")")
             (w3_count inputs);
           NumberInput ("Contacts for WARMING4 (" +:+ WARMING4 secrets +:+ ")")
             (w4_count inputs);
           NumberInput ("Contacts for WARMING5 (" +:+ WARMING5 secrets +:+ ")")
             (w5_count inputs);
           Write ("Total requested: " +:+ pretty (total_requested inputs));
           Button "Run Allocation" ] in
    if run_allocation inputs then
      let allocations := main_allocations secrets inputs in
      let page := page ++ [Write "Starting allocation process..."] in
      let '(c, s) :=
        process_contacts spreadsheet_id source_sheet_name target_sheet_name
          brand_id api_key allocations s in
      (page, Ended c, s)
    else (page, Ended Returned, s).
End Main.

(** ** Further vocabulary *)

(** [row_data] as line 39 pads it. *)
Definition padded (headers row_data : list string) : list string :=
  row_data ++ replicate (length headers - length row_data) "".

(** ** Dicts made by [dict(zip(...))] *)

(** The dict that a row dict becomes when it is written to a sheet in
    the order of the headers and read again. *)
Definition reread (headers : list string) (d : Row) : Row :=
  Py.dict_zip headers (padded headers (row_in_order headers d)).

(** The [list_ids] of the requests of a run in which the lists were
    served [ns] rows each, in the order of the allocations. *)
Definition served (ns : list nat) (allocations : list (string * Z))
  : list (list string) :=
  concat (zip_with (λ n item, replicate n [item.1]) ns allocations).

(** [sum(max(0, count))] over the allocations. *)
Definition total_quota (allocations : list (string * Z)) : Z :=
  foldr (λ item acc, (Z.max 0 item.2 + acc)%Z) 0%Z allocations.

(** The lines of lines 156, 184 and 189: one for each row taken. *)
Definition is_outcome (m : Message) : bool :=
  match m with
  | SkippedRow | Added _ _ | Failed _ _ => true
  | _ => false
  end.

(** The line of line 184. *)
Definition is_added (m : Message) : bool :=
  match m with
  | Added _ _ => true
  | _ => false
  end.

(** The line of line 145. *)
Definition is_allocating (m : Message) : bool :=
  match m with
  | Allocating _ _ => true
  | _ => false
  end.

(** The lines of lines 207-211, after [k] rows were processed. *)
Definition closing_lines (k : nat) (target_sheet_name : string)
  : list Message :=
  match k with
  | 0 => [AllDone]
  | S _ => [Appended k target_sheet_name; AllDone]
  end.

(** The rows that [fetch_sheet_data] reads from the source sheet of
    [Demo.two_sheets]. *)
Definition two_rows : list Row :=
  [ {["Email" := "a@x.com";
      "Status" := "Successfully added on 2024-04-30 to L"]};
    {["Email" := "b@x.com"; "Status" := ""]} ].

(** * Properties *)

#[local] Arguments loop_body : simpl never.
#[local] Arguments upsert_contact_in_bigmailer : simpl never.

(** ** The model on small inputs *)

Example strip_both_ends : Py.strip "  Ann Lee  " = "Ann Lee".
Proof. reflexivity. Qed.

Example strip_blank : Py.strip "   " = "".
Proof. reflexivity. Qed.

Example startswith_added :
  Py.startswith "Successfully added on 2024-04-30 to L" "Successfully added"
  = true
  ∧ Py.startswith "Skipped: No Email" "Successfully added" = false.
Proof. by vm_compute. Qed.

Example dict_zip_last_wins :
  Py.dict_zip ["k"; "k"; "h"] ["1"; "2"] !! "k" = Some "2".
Proof. by vm_compute. Qed.

Example str_upsert_failed :
  str (UpsertFailed 404 "not found") = "Upsert failed with 404: not found".
Proof. by vm_compute. Qed.

(** A short row is padded to the length of the headers. *)
Example fetch_pads_short_rows :
  let E := Demo.always_ok in
  let g : Sheets :=
    {[ ("doc", "ContactsToAdd") := [ ["Email"; "Status"]; ["a@x.com"] ] ]} in
  @fetch_sheet_data E "doc" "ContactsToAdd" (Demo.start E g ())
  = Some (["Email"; "Status"], [ {["Email" := "a@x.com"; "Status" := ""]} ]).
Proof. by vm_compute. Qed.

(** A whole call: the row to do is upserted, leaves the source sheet and
    is appended to the target sheet; the row already added is dropped
    from the source sheet. *)
Example run_two_sheets :
  let E := Demo.always_ok in
  let run := @process_contacts E "doc" "ContactsToAdd" "ProcessedContacts"
               "brand" "key" [("L", 1%Z)] (Demo.start E Demo.two_sheets ()) in
  run.1 = Returned
  ∧ sheets run.2 !! ("doc", "ContactsToAdd") = Some [ ["Email"; "Status"] ]
  ∧ sheets run.2 !! ("doc", "ProcessedContacts")
    = Some [ ["Email"; "Status"];
             ["b@x.com"; "Successfully added on 2024-05-01 to L"] ]
  ∧ written run.2
    = [ Allocating 1 "L"; Added "b@x.com" "L";
        Appended 1 "ProcessedContacts"; AllDone ]
  ∧ email <$> posted run.2 = ["b@x.com"].
Proof. by vm_compute. Qed.

(** A missing target sheet stops the call after the source sheet has been
    rewritten. *)
Example run_without_target :
  let E := Demo.always_ok in
  let g : Sheets := delete ("doc", "ProcessedContacts") Demo.two_sheets in
  let run := @process_contacts E "doc" "ContactsToAdd" "ProcessedContacts"
               "brand" "key" [("L", 1%Z)] (Demo.start E g ()) in
  run.1 = SheetsError "doc" "ProcessedContacts"
  ∧ sheets run.2 !! ("doc", "ContactsToAdd") = Some [ ["Email"; "Status"] ].
Proof. by vm_compute. Qed.

(** ** Splitting a list in two, in order *)

Section Interleave.
Context {A : Type}.
Implicit Types l : list A.

Lemma interleave_nil_l l : Interleave [] l l.
Proof. induction l; by constructor. Qed.

Lemma interleave_nil_r l : Interleave l [] l.
Proof. induction l; by constructor. Qed.

Lemma interleave_app l1 l2 l k1 k2 k :
  Interleave l1 l2 l → Interleave k1 k2 k →
  Interleave (l1 ++ k1) (l2 ++ k2) (l ++ k).
Proof. induction 1; intros; simpl; [done|by constructor; auto..]. Qed.

Lemma interleave_snoc_left l1 l2 l x :
  Interleave l1 l2 l → Interleave (l1 ++ [x]) l2 (l ++ [x]).
Proof.
  intros Hi. rewrite <-(app_nil_r l2).
  apply interleave_app; [done|]. repeat constructor.
Qed.

Lemma interleave_snoc_right l1 l2 l x :
  Interleave l1 l2 l → Interleave l1 (l2 ++ [x]) (l ++ [x]).
Proof.
  intros Hi. rewrite <-(app_nil_r l1).
  apply interleave_app; [done|]. repeat constructor.
Qed.

Lemma interleave_app_right l1 l2 l k :
  Interleave l1 l2 l → Interleave l1 (l2 ++ k) (l ++ k).
Proof.
  intros Hi. rewrite <-(app_nil_r l1).
  apply interleave_app; [done|]. apply interleave_nil_l.
Qed.

Lemma interleave_length l1 l2 l :
  Interleave l1 l2 l → length l1 + length l2 = length l.
Proof. induction 1; simpl; lia. Qed.

Lemma interleave_perm l1 l2 l : Interleave l1 l2 l → l1 ++ l2 ≡ₚ l.
Proof.
  induction 1 as [|x l1 l2 l _ IH|x l1 l2 l _ IH]; simpl; [done|by f_equiv|].
  by rewrite <-Permutation_middle, IH.
Qed.

Lemma interleave_sublist_l l1 l2 l : Interleave l1 l2 l → l1 `sublist_of` l.
Proof. induction 1; by constructor. Qed.

Lemma interleave_sublist_r l1 l2 l : Interleave l1 l2 l → l2 `sublist_of` l.
Proof. induction 1; by constructor. Qed.

Lemma interleave_elem_of l1 l2 l x :
  Interleave l1 l2 l → x ∈ l ↔ x ∈ l1 ∨ x ∈ l2.
Proof.
  intros Hi. rewrite <-(interleave_perm _ _ _ Hi). apply elem_of_app.
Qed.

Lemma interleave_disjoint l1 l2 l x :
  Interleave l1 l2 l → NoDup l → x ∈ l1 → x ∈ l2 → False.
Proof.
  intros Hi Hnd. rewrite <-(interleave_perm _ _ _ Hi) in Hnd.
  apply NoDup_app in Hnd as (_ & Hd & _). apply Hd.
Qed.
End Interleave.

(** ** Text *)

Lemma truthy_false s : Py.truthy s = false ↔ s = "".
Proof. by destruct s. Qed.

Lemma truthy_true s : Py.truthy s = true ↔ s ≠ "".
Proof. by destruct s. Qed.

(** ** The loops *)

Section LoopFacts.
Context `{Externals}.
Variables (headers : list string) (unprocessed : list Ref).
Variables (brand_id api_key : string).

Abbreviation body := (loop_body headers unprocessed brand_id api_key).
Abbreviation while_alloc :=
  (while_allocated headers unprocessed brand_id api_key).
Abbreviation for_all :=
  (for_allocations headers unprocessed brand_id api_key).

Lemma upsert_state e b k i fv v u s :
  let r := upsert_contact_in_bigmailer e b k i fv v u s in
  sheets r.2 = sheets s ∧ written r.2 = written s
  ∧ posted r.2 = posted s ++ [upsert_request e b k i (default [] fv) v u].
Proof.
  unfold upsert_contact_in_bigmailer.
  destruct (requests_post _ _) as [[resp|msg] w]; simpl; [|done].
  destruct (_ =? _)%Z; [|done]. by destruct (response_json resp).
Qed.

Lemma loop_body_turn list_id l s :
  Turn headers unprocessed list_id l s (body list_id (l, s)).1
    (body list_id (l, s)).2.
Proof.
  unfold loop_body.
  destruct (Py.truthy _) eqn:Hemail; simpl negb; cbv iota.
  - apply truthy_true in Hemail.
    pose proof (upsert_state
      (Py.strip (Py.get (heap l !!! (unprocessed !!! idx l)) "Email"))
      brand_id api_key list_id
      (Some (field_values_of
         (Py.strip (Py.get (heap l !!! (unprocessed !!! idx l)) "First Name"))
         (Py.strip (Py.get (heap l !!! (unprocessed !!! idx l)) "Last Name"))
         (Py.strip (Py.get (heap l !!! (unprocessed !!! idx l)) "Tags"))))
      false false s) as (Hsh & Hwr & Hpo).
    destruct (upsert_contact_in_bigmailer _ _ _ _ _ _ _ _) as [[j|e] s'];
      simpl in *.
    + by eapply turn_added.
    + by eapply turn_error.
  - apply truthy_false in Hemail. by apply turn_skip.
Qed.

(** Induction over the turns of the inner loop. *)
Lemma while_allocated_ind (P : Locals → State → Prop) list_id count :
  (∀ l s l' s',
      P l s → idx l < length unprocessed → (allocated l < count)%Z →
      Turn headers unprocessed list_id l s l' s' → P l' s') →
  ∀ fuel l s,
    P l s →
    P (while_alloc fuel list_id count (l, s)).1
      (while_alloc fuel list_id count (l, s)).2.
Proof.
  intros Hturn fuel. induction fuel as [|fuel IH]; intros l s HP; [done|].
  simpl. destruct (bool_decide (allocated l < count)%Z) eqn:Ha; [|done].
  destruct (bool_decide (idx l < length unprocessed)) eqn:Hi; [|done].
  simpl. apply bool_decide_eq_true in Ha, Hi.
  pose proof (loop_body_turn list_id l s) as Ht.
  destruct (body list_id (l, s)) as [l' s']. apply IH. eauto.
Qed.

(** Induction over the whole of lines 144-191. *)
Lemma for_allocations_ind (P : Locals → State → Prop) :
  (∀ list_id l s l' s',
      P l s → idx l < length unprocessed →
      Turn headers unprocessed list_id l s l' s' → P l' s') →
  (∀ l s m, P l s → P (reset_allocated l) (st_write m s)) →
  ∀ allocations l s,
    P l s →
    P (for_all allocations (l, s)).1 (for_all allocations (l, s)).2.
Proof.
  intros Hturn Hreset allocations.
  induction allocations as [|[list_id count] allocations IH];
    intros l s HP; [done|].
  unfold for_allocations; simpl.
  pose proof (while_allocated_ind P list_id count
    (λ l s l' s' HP' Hi _ Ht, Hturn list_id l s l' s' HP' Hi Ht)
    (length unprocessed - idx (reset_allocated l))
    (reset_allocated l) (st_write (Allocating count list_id) s)
    (Hreset _ _ _ HP)) as Hw.
  destruct (while_alloc _ _ _ _) as [l' s']. by apply IH.
Qed.
End LoopFacts.

Lemma set_status_length msg r (hp : list Row) :
  length (set_status msg r hp) = length hp.
Proof. apply length_alter. Qed.

Lemma set_status_lookup_ne msg r r' (hp : list Row) :
  r ≠ r' → set_status msg r hp !!! r' = hp !!! r'.
Proof. intros. by apply list_lookup_total_alter_ne. Qed.

Lemma set_status_lookup msg r (hp : list Row) :
  r < length hp → set_status msg r hp !!! r = <["Status" := msg]> (hp !!! r).
Proof. intros. by apply list_lookup_total_alter_eq. Qed.

Section InvariantFacts.
Context `{Externals}.
Variables (headers : list string) (unprocessed : list Ref).
Variables (brand_id api_key : string).
Variables (heap0 : list Row) (s0 : State).
Hypothesis Hnd : NoDup unprocessed.
Hypothesis Hvalid : ∀ r, r ∈ unprocessed → r < length heap0.

Abbreviation inv := (Inv headers unprocessed heap0 s0).

Lemma cursor_take i :
  i < length unprocessed →
  take (S i) unprocessed = take i unprocessed ++ [unprocessed !!! i]
  ∧ (unprocessed !!! i ∉ take i unprocessed)
  ∧ unprocessed !!! i < length heap0.
Proof.
  intros Hi. pose proof (list_lookup_lookup_total_lt unprocessed i Hi) as Hl.
  split_and!.
  - by apply take_S_r.
  - intros (j & Hj & Hlt)%elem_of_take.
    pose proof (NoDup_lookup _ _ _ _ Hnd Hl Hj). lia.
  - apply Hvalid. by eapply list_elem_of_lookup_2.
Qed.

(** A status written at the cursor leaves the rows already routed as
    they are. *)
Lemma routed_stable (P : list Row → Ref → Prop) msg i hp refs :
  (∀ hp', ∀ r, hp' !!! r = hp !!! r → P hp r → P hp' r) →
  unprocessed !!! i ∉ take i unprocessed →
  (∀ r, r ∈ refs → r ∈ take i unprocessed) →
  Forall (P hp) refs →
  Forall (P (set_status msg (unprocessed !!! i) hp)) refs.
Proof.
  intros HP Hfresh Hsub Hall. apply Forall_forall. intros r Hr.
  rewrite Forall_forall in Hall. eapply HP; [|by apply Hall].
  apply set_status_lookup_ne. intros <-. by apply Hfresh, Hsub.
Qed.

Lemma init_inv :
  inv {| heap := heap0; idx := 0; allocated := 0;
       processed_rows_data := []; updated_rows_source := [] |} s0.
Proof.
  split; simpl; [lia|done..|].
  exists [], []. rewrite app_nil_r. by repeat constructor.
Qed.

Lemma reset_inv l s m : inv l s → inv (reset_allocated l) (st_write m s).
Proof. intros [? ? ? ? ?]. by split. Qed.

Lemma turn_inv list_id l s l' s' :
  inv l s → idx l < length unprocessed →
  Turn headers unprocessed list_id l s l' s' → inv l' s'.
Proof.
  intros [Hidx Hlen Hun Hsh
            (prefs & reqs & Hproc & Hil & Hadd & Hret & Hpo & Hem)] Hi Ht.
  destruct (cursor_take (idx l) Hi) as (Htake & Hfresh & Hlt).
  pose proof (Hun _ Hfresh) as Hrow.
  assert (Hpsub : ∀ r, r ∈ prefs → r ∈ take (idx l) unprocessed).
  { intros r Hr. apply (interleave_elem_of _ _ _ r Hil). by left. }
  assert (Hrsub : ∀ r, r ∈ updated_rows_source l →
                       r ∈ take (idx l) unprocessed).
  { intros r Hr. apply (interleave_elem_of _ _ _ r Hil). by right. }
  assert (Hkeep : ∀ msg (refs : list nat),
    (∀ r, r ∈ refs → r ∈ take (idx l) unprocessed) →
    (λ r, row_in_order headers
            (set_status msg (unprocessed !!! idx l) (heap l) !!! r)) <$> refs
    = (λ r, row_in_order headers (heap l !!! r)) <$> refs).
  { intros msg refs Hsub. apply list_fmap_ext. intros j r Hj.
    rewrite set_status_lookup_ne; [done|]. intros <-.
    apply Hfresh, Hsub. by eapply list_elem_of_lookup_2. }
  assert (Hadd' : ∀ msg,
    Forall (added_row heap0 (set_status msg (unprocessed !!! idx l) (heap l)))
      prefs).
  { intros msg.
    apply (routed_stable (added_row heap0)); [|done..].
    intros hp' r Heq [? ?]. split; [done|]. by rewrite Heq. }
  assert (Hret' : ∀ msg,
    Forall (λ r, skipped_row heap0
                   (set_status msg (unprocessed !!! idx l) (heap l)) r
                 ∨ error_row heap0
                     (set_status msg (unprocessed !!! idx l) (heap l)) r)
      (updated_rows_source l)).
  { intros msg.
    apply (routed_stable
      (λ hp r, skipped_row heap0 hp r ∨ error_row heap0 hp r)); [|done..].
    intros hp' r Heq [[? ?]|[? ?]]; [left|right]; split; by rewrite ?Heq. }
  assert (Hun' : ∀ msg r,
    r ∉ take (S (idx l)) unprocessed →
    set_status msg (unprocessed !!! idx l) (heap l) !!! r = heap0 !!! r).
  { intros msg r Hr. rewrite Htake in Hr.
    rewrite set_status_lookup_ne; [|set_solver]. apply Hun. set_solver. }
  assert (Hnew : ∀ msg,
    set_status msg (unprocessed !!! idx l) (heap l)
    !!! (unprocessed !!! idx l)
    = <["Status" := msg]> (heap0 !!! (unprocessed !!! idx l))).
  { intros msg. rewrite set_status_lookup by lia. by rewrite Hrow. }
  assert (Hmail :
    Py.strip (Py.get (heap l !!! (unprocessed !!! idx l)) "Email")
    = email_of heap0 (unprocessed !!! idx l)).
  { unfold email_of. by rewrite Hrow. }
  destruct Ht as [s' Hempty Hpo' Hsh'
                 |s' req date Hfull Hpo' Hsh' Hreq Hlist hp
                 |s' req e Hfull Hpo' Hsh' Hreq Hlist];
    try subst hp;
    (split; simpl;
     [lia|by rewrite set_status_length|by auto|congruence|]).
  - exists prefs, reqs. rewrite Htake, fmap_app, filter_app; simpl.
    rewrite Hmail in Hempty. rewrite filter_cons, decide_False, app_nil_r
      by (by intros ?).
    split_and!; [by rewrite Hkeep|by apply interleave_snoc_right|done|
                |congruence|done].
    apply Forall_app; split; [done|]. constructor; [|done].
    left. by split.
  - exists (prefs ++ [unprocessed !!! idx l]), (reqs ++ [req]).
    rewrite Htake, !fmap_app, filter_app; simpl.
    rewrite Hmail in Hfull, Hreq.
    rewrite filter_cons, decide_True by done.
    split_and!; [by rewrite Hkeep, Hproc|by apply interleave_snoc_left| |done
                |by rewrite Hpo', Hpo, app_assoc|by rewrite Hem, Hreq].
    apply Forall_app; split; [done|]. constructor; [|done].
    split; [done|]. by eexists _, _.
  - exists prefs, (reqs ++ [req]).
    rewrite Htake, !fmap_app, filter_app; simpl.
    rewrite Hmail in Hfull, Hreq.
    rewrite filter_cons, decide_True by done.
    split_and!; [by rewrite Hkeep|by apply interleave_snoc_right|done|
                |by rewrite Hpo', Hpo, app_assoc|by rewrite Hem, Hreq].
    apply Forall_app; split; [done|]. constructor; [|done].
    right. split; [done|]. by eexists.
Qed.

Lemma for_allocations_inv allocations l s :
  inv l s →
  inv (for_allocations headers unprocessed brand_id api_key allocations
         (l, s)).1
      (for_allocations headers unprocessed brand_id api_key allocations
         (l, s)).2.
Proof.
  apply for_allocations_ind.
  - intros. by eapply turn_inv.
  - intros. by apply reset_inv.
Qed.
End InvariantFacts.

Section Queue.
Implicit Types rows : list Row.

Lemma unprocessed_NoDup rows : NoDup (unprocessed_of rows).
Proof. apply NoDup_filter, NoDup_seq. Qed.

Lemma unprocessed_valid rows r : r ∈ unprocessed_of rows → r < length rows.
Proof.
  intros [_ Hr%elem_of_seq]%list_elem_of_filter. lia.
Qed.

Lemma unprocessed_status rows r :
  r ∈ unprocessed_of rows →
  Py.startswith (Py.get (rows !!! r) "Status") "Successfully added" = false.
Proof.
  intros [Hs _]%list_elem_of_filter. by destruct (Py.startswith _ _).
Qed.

Lemma excluded_status rows r :
  r ∈ excluded_of rows →
  Py.startswith (Py.get (rows !!! r) "Status") "Successfully added" = true.
Proof.
  intros [Hs _]%list_elem_of_filter. by destruct (Py.startswith _ _).
Qed.

Lemma unprocessed_excluded rows :
  Interleave (unprocessed_of rows) (excluded_of rows) (seq 0 (length rows)).
Proof.
  unfold unprocessed_of, excluded_of.
  induction (seq 0 (length rows)) as [|r refs IH]; [constructor|].
  rewrite !filter_cons.
  destruct (Py.startswith (Py.get (rows !!! r) "Status") "Successfully added")
    eqn:Hs.
  - rewrite decide_False, decide_True by (rewrite ?Hs; naive_solver).
    by constructor.
  - rewrite decide_True, decide_False by (rewrite ?Hs; naive_solver).
    by constructor.
Qed.
End Queue.

Section Exits.
Context `{Externals}.
Variables (headers : list string) (unprocessed : list Ref).
Variables (brand_id api_key : string).

(** The fuel is enough: the inner loop stops because its condition
    fails. *)
Lemma while_allocated_exit fuel list_id count l s :
  length unprocessed - idx l ≤ fuel →
  let l' := (while_allocated headers unprocessed brand_id api_key fuel
               list_id count (l, s)).1 in
  ¬ ((allocated l' < count)%Z ∧ idx l' < length unprocessed).
Proof.
  revert l s. induction fuel as [|fuel IH]; intros l s Hfuel; simpl.
  - lia.
  - destruct (bool_decide (allocated l < count)%Z) eqn:Ha; simpl;
      [|apply bool_decide_eq_false in Ha; tauto].
    destruct (bool_decide (idx l < length unprocessed)) eqn:Hi; simpl;
      [|apply bool_decide_eq_false in Hi; tauto].
    pose proof (loop_body_turn headers unprocessed brand_id api_key
                  list_id l s) as Ht.
    destruct (loop_body _ _ _ _ _ _) as [l1 s1]. apply IH.
    simpl in Ht. destruct Ht; simpl; lia.
Qed.

(** The loop of lines 194-196 appends what lies from the cursor on. *)
Lemma while_leftover_drop fuel l :
  length unprocessed - idx l ≤ fuel →
  while_leftover unprocessed fuel l
  = {| heap := heap l; idx := max (idx l) (length unprocessed);
       allocated := allocated l;
       processed_rows_data := processed_rows_data l;
       updated_rows_source :=
         updated_rows_source l ++ drop (idx l) unprocessed |}.
Proof.
  revert l. induction fuel as [|fuel IH]; intros l Hfuel; simpl.
  - rewrite drop_ge, app_nil_r by lia.
    destruct l; simpl in *. f_equal. lia.
  - case_bool_decide as Hi.
    + rewrite IH by (simpl; lia). simpl. f_equal; [lia|].
      rewrite <-app_assoc. f_equal. simpl.
      symmetry. by apply drop_S, list_lookup_lookup_total_lt.
    + rewrite drop_ge, app_nil_r by lia.
      destruct l; simpl in *. f_equal. lia.
Qed.
End Exits.

Section Allocate.
Context `{Externals}.
Variables (headers : list string) (rows : list Row).
Variables (brand_id api_key : string) (allocations : list (string * Z)).
Variable (s : State).

Abbreviation mid :=
  (after_for headers rows brand_id api_key allocations s).

Lemma allocate_after_for :
  allocate headers rows brand_id api_key allocations s
  = ({| heap := heap mid.1;
        idx := max (idx mid.1) (length (unprocessed_of rows));
        allocated := allocated mid.1;
        processed_rows_data := processed_rows_data mid.1;
        updated_rows_source :=
          updated_rows_source mid.1
          ++ drop (idx mid.1) (unprocessed_of rows) |},
     mid.2).
Proof.
  unfold allocate, after_for.
  destruct (for_allocations _ _ _ _ _ _) as [l s']; simpl.
  by rewrite while_leftover_drop.
Qed.

Lemma after_for_inv :
  Inv headers (unprocessed_of rows) rows s mid.1 mid.2.
Proof.
  apply for_allocations_inv.
  - apply unprocessed_NoDup.
  - apply unprocessed_valid.
  - apply init_inv.
Qed.
End Allocate.

(** ** Where the rows go *)

Section Results.
Context `{Externals}.
Variables (headers : list string) (rows : list Row).
Variables (brand_id api_key : string) (allocations : list (string * Z)).
Variable (s : State).

Abbreviation unprocessed := (unprocessed_of rows).
Abbreviation final :=
  (allocate headers rows brand_id api_key allocations s).
Abbreviation mid :=
  (after_for headers rows brand_id api_key allocations s).

(** Where every row of the queue went, at the end of line 196. *)
Lemma allocate_routed :
  ∃ prefs,
    processed_rows_data final.1
    = (λ r, row_in_order headers (heap final.1 !!! r)) <$> prefs
    ∧ Interleave prefs (updated_rows_source final.1) unprocessed
    ∧ Forall (added_row rows (heap final.1)) prefs.
Proof.
  rewrite allocate_after_for; simpl.
  destruct (after_for_inv headers rows brand_id api_key allocations s)
    as [_ _ _ _ (prefs & reqs & Hproc & Hil & Hadd & _)].
  exists prefs. split_and!; [done| |done].
  rewrite <-(take_drop (idx mid.1) unprocessed) at 2.
  by apply interleave_app_right.
Qed.

(** Each row of the heap is as it was read, but for its status. *)
Lemma allocate_row r :
  heap final.1 !!! r = rows !!! r
  ∨ ∃ msg, heap final.1 !!! r = <["Status" := msg]> (rows !!! r).
Proof.
  rewrite allocate_after_for; simpl.
  destruct (after_for_inv headers rows brand_id api_key allocations s)
    as [_ _ Hun _ (prefs & reqs & _ & Hil & Hadd & Hret & _)].
  destruct (decide (r ∈ take (idx mid.1) unprocessed)) as [Hr|Hr];
    [|left; by apply Hun].
  right. apply (interleave_elem_of _ _ _ r Hil) in Hr as [Hr|Hr].
  - rewrite Forall_forall in Hadd.
    destruct (Hadd r Hr) as (_ & date & list_id & ->). by eexists.
  - rewrite Forall_forall in Hret.
    destruct (Hret r Hr) as [[_ ->]|(_ & e & ->)]; by eexists.
Qed.

Lemma allocate_fields r k :
  k ≠ "Status" → (heap final.1 !!! r) !! k = (rows !!! r) !! k.
Proof.
  intros Hk. destruct (allocate_row r) as [->|[msg ->]]; [done|].
  by rewrite lookup_insert_ne.
Qed.
End Results.

Lemma row_in_order_lookup headers (d : Row) i h :
  headers !! i = Some h → row_in_order headers d !! i = Some (Py.get d h).
Proof. intros Hh. unfold row_in_order. by rewrite list_lookup_fmap, Hh. Qed.

Lemma get_fields (d d' : Row) k : d !! k = d' !! k → Py.get d k = Py.get d' k.
Proof. unfold Py.get. by intros ->. Qed.

(** ** What counts toward a quota *)

Lemma set_status_get msg r r' (hp : list Row) k :
  k ≠ "Status" →
  Py.get (set_status msg r hp !!! r') k = Py.get (hp !!! r') k.
Proof.
  intros Hk. unfold set_status. rewrite list_lookup_total_alter.
  case_decide as Hr; [|done]. destruct Hr as [-> _].
  unfold Py.get. by rewrite lookup_insert_ne.
Qed.

Lemma set_status_email msg r r' (hp : list Row) :
  email_of (set_status msg r hp) r' = email_of hp r'.
Proof. unfold email_of. by rewrite set_status_get. Qed.

Lemma take_drop_snoc {A} `{!Inhabited A} (l : list A) i j :
  i ≤ j → j < length l →
  take (S j - i) (drop i l) = take (j - i) (drop i l) ++ [l !!! j].
Proof.
  intros Hij Hj. replace (S j - i) with (S (j - i)) by lia.
  apply take_S_r. rewrite lookup_drop.
  replace (i + (j - i)) with j by lia.
  by apply list_lookup_lookup_total_lt.
Qed.

Section Quota.
Context `{Externals}.
Variables (headers : list string) (unprocessed : list Ref).
Variables (brand_id api_key : string).
Variables (list_id : string) (count : Z).
Variables (l0 : Locals) (s0 : State).

Abbreviation Counted' := (Counted unprocessed list_id count l0 s0).

Lemma counted_start m :
  Counted' (reset_allocated l0) (st_write m s0).
Proof.
  split; simpl; [lia|done|]. exists []. rewrite Nat.sub_diag, app_nil_r.
  split_and!; simpl; [done..|lia].
Qed.

Lemma counted_turn l s l' s' :
  Counted' l s → idx l < length unprocessed → (allocated l < count)%Z →
  Turn headers unprocessed list_id l s l' s' → Counted' l' s'.
Proof.
  intros [Hidx Hmail (reqs & Hpo & Hem & Hlists & Hal & Hle)] Hi Hlt Ht.
  pose proof (take_drop_snoc unprocessed (idx l0) (idx l) Hidx Hi) as Htake.
  pose proof (Hmail (unprocessed !!! idx l)) as Hm.
  unfold email_of at 1 in Hm.
  destruct Ht as [s' Hempty Hpo' Hsh'
                 |s' req date Hfull Hpo' Hsh' Hreq Hlist hp
                 |s' req e Hfull Hpo' Hsh' Hreq Hlist];
    try subst hp;
    (split; simpl;
     [lia|intros r; by rewrite set_status_email|]);
    rewrite Htake, fmap_app, filter_app; simpl;
    rewrite Hm in *; rewrite filter_cons.
  - exists reqs. rewrite decide_False, app_nil_r by (by intros ?).
    split_and!; [congruence|done..].
  - exists (reqs ++ [req]). rewrite decide_True by done.
    rewrite fmap_app, length_app, Hem; simpl.
    split_and!; [by rewrite Hpo', Hpo, app_assoc|by rewrite Hreq
                |apply Forall_app; by repeat constructor|lia|lia].
  - exists (reqs ++ [req]). rewrite decide_True by done.
    rewrite fmap_app, length_app, Hem; simpl.
    split_and!; [by rewrite Hpo', Hpo, app_assoc|by rewrite Hreq
                |apply Forall_app; by repeat constructor|lia|lia].
Qed.

Lemma for_body_counted :
  Counted'
    (for_body headers unprocessed brand_id api_key (l0, s0)
       (list_id, count)).1
    (for_body headers unprocessed brand_id api_key (l0, s0)
       (list_id, count)).2.
Proof.
  unfold for_body.
  apply while_allocated_ind with (P := Counted').
  - intros. by eapply counted_turn.
  - apply counted_start.
Qed.
End Quota.

(** ** Quotas of zero *)

Section ZeroQuota.
Context `{Externals}.
Variables (headers : list string) (unprocessed : list Ref).
Variables (brand_id api_key : string).

(** With a quota of 0 the inner loop does not turn. *)
Lemma for_body_zero list_id l s :
  for_body headers unprocessed brand_id api_key (l, s) (list_id, 0%Z)
  = (reset_allocated l, st_write (Allocating 0 list_id) s).
Proof. unfold for_body. by destruct (length unprocessed - _). Qed.

Lemma for_allocations_cons item allocations ls :
  for_allocations headers unprocessed brand_id api_key (item :: allocations)
    ls
  = for_allocations headers unprocessed brand_id api_key allocations
      (for_body headers unprocessed brand_id api_key ls item).
Proof. done. Qed.

Lemma for_allocations_zero allocations l s :
  Forall (λ item : string * Z, item.2 = 0%Z) allocations →
  let ls' := for_allocations headers unprocessed brand_id api_key
               allocations (l, s) in
  heap ls'.1 = heap l ∧ idx ls'.1 = idx l
  ∧ processed_rows_data ls'.1 = processed_rows_data l
  ∧ updated_rows_source ls'.1 = updated_rows_source l
  ∧ posted ls'.2 = posted s ∧ sheets ls'.2 = sheets s.
Proof.
  intros Hzero. revert l s.
  induction Hzero as [|[list_id count] allocations Hc _ IH]; intros l s;
    [done|].
  simpl in Hc. subst count.
  rewrite for_allocations_cons, for_body_zero.
  apply (IH (reset_allocated l) (st_write (Allocating 0 list_id) s)).
Qed.
End ZeroQuota.

(** ** Rows as read from a sheet *)

Lemma dict_zip_keys ks vs k : is_Some (Py.dict_zip ks vs !! k) → k ∈ ks.
Proof.
  unfold Py.dict_zip.
  assert (Hgen : ∀ (kvs : list (string * string)) (d : Row),
    is_Some (foldl (λ d kv, <[kv.1 := kv.2]> d) d kvs !! k) →
    is_Some (d !! k) ∨ k ∈ kvs.*1).
  { induction kvs as [|[k' v'] kvs IH]; intros d Hk; simpl in *; [by left|].
    destruct (IH _ Hk) as [Hd|Hin]; [|right; by apply elem_of_cons; right].
    destruct (decide (k' = k)) as [->|Hne];
      [right; by apply elem_of_cons; left|].
    left. by rewrite lookup_insert_ne in Hd. }
  intros Hk. destruct (Hgen _ _ Hk) as [Hempty|Hin].
  - rewrite lookup_empty in Hempty. by destruct Hempty.
  - apply list_elem_of_fmap in Hin as ([k' v'] & -> & Hin).
    by apply elem_of_zip_l in Hin.
Qed.

Section Fetch.
Context `{Externals}.

Lemma fetch_sheet_data_keys spreadsheet_id sheet_name s headers rows d k :
  fetch_sheet_data spreadsheet_id sheet_name s = Some (headers, rows) →
  d ∈ rows → is_Some (d !! k) → k ∈ headers.
Proof.
  unfold fetch_sheet_data. intros Hfetch Hd Hk.
  destruct (values_get spreadsheet_id sheet_name s) as [[|hs data]|];
    simplify_eq/=; [by apply elem_of_nil in Hd|].
  apply list_elem_of_fmap in Hd as (row_data & -> & _).
  by eapply dict_zip_keys.
Qed.

Lemma fetch_sheet_data_exists spreadsheet_id sheet_name s headers rows :
  fetch_sheet_data spreadsheet_id sheet_name s = Some (headers, rows) →
  is_Some (sheets s !! (spreadsheet_id, sheet_name)).
Proof.
  unfold fetch_sheet_data, values_get. intros Hfetch.
  by destruct (sheets s !! _).
Qed.

Lemma rewrite_sheet_data_sheets spreadsheet_id sheet_name headers data s :
  is_Some (sheets s !! (spreadsheet_id, sheet_name)) →
  ∃ s',
    rewrite_sheet_data spreadsheet_id sheet_name headers data s = Some s'
    ∧ sheets s' !! (spreadsheet_id, sheet_name) = Some (headers :: data).
Proof.
  intros [old Hold]. unfold rewrite_sheet_data, values_clear, values_update.
  rewrite Hold; simpl. rewrite lookup_insert_eq; simpl.
  eexists. split; [done|]. simpl. by rewrite lookup_insert_eq.
Qed.

Lemma append_to_sheet_sheets spreadsheet_id sheet_name data s s' k :
  append_to_sheet spreadsheet_id sheet_name data s = Some s' →
  k ≠ (spreadsheet_id, sheet_name) → sheets s' !! k = sheets s !! k.
Proof.
  unfold append_to_sheet, values_append. intros Happ Hk.
  destruct (sheets s !! (spreadsheet_id, sheet_name)); simplify_eq/=.
  by rewrite lookup_insert_ne.
Qed.
End Fetch.

Lemma allocate_sheets `{Externals}
    headers rows brand_id api_key allocations s :
  sheets (allocate headers rows brand_id api_key allocations s).2 = sheets s.
Proof.
  rewrite allocate_after_for; simpl.
  by destruct (after_for_inv headers rows brand_id api_key allocations s).
Qed.

(** The source sheet after a call that returns. *)
Lemma process_contacts_source `{Externals}
    spreadsheet_id source_sheet_name target_sheet_name brand_id api_key
    allocations s s' headers row rows :
  source_sheet_name ≠ target_sheet_name →
  fetch_sheet_data spreadsheet_id source_sheet_name s
  = Some (headers, row :: rows) →
  process_contacts spreadsheet_id source_sheet_name target_sheet_name
    brand_id api_key allocations s = (Returned, s') →
  sheets s' !! (spreadsheet_id, source_sheet_name)
  = Some (headers
          :: new_source_data headers
               (allocate headers (row :: rows) brand_id api_key allocations
                  s).1).
Proof.
  intros Hne Hfetch. unfold process_contacts. rewrite Hfetch.
  pose proof (fetch_sheet_data_exists _ _ _ _ _ Hfetch) as Hsrc.
  pose proof (allocate_sheets headers (row :: rows) brand_id api_key
                allocations s) as Hsh.
  destruct (allocate _ _ _ _ _ _) as [l1 s1]; simpl in *.
  rewrite <-Hsh in Hsrc.
  destruct (rewrite_sheet_data_sheets spreadsheet_id source_sheet_name headers
              (new_source_data headers l1) s1 Hsrc) as (s2 & -> & Hs2).
  destruct (processed_rows_data l1) as [|p ps].
  { by intros [= <-]. }
  destruct (append_to_sheet _ _ _ s2) as [s3|] eqn:Happ; [|done].
  intros [= <-]; simpl.
  erewrite append_to_sheet_sheets; [done..|]. congruence.
Qed.

Section Retained.
Context `{Externals}.
Variables (headers : list string) (rows : list Row).
Variables (brand_id api_key : string) (allocations : list (string * Z)).
Variable (s : State).

(** No retained row has a status that begins "Successfully added". *)
Lemma retained_status r :
  r ∈ updated_rows_source
        (allocate headers rows brand_id api_key allocations s).1 →
  Py.startswith
    (Py.get
       (heap (allocate headers rows brand_id api_key allocations s).1 !!! r)
       "Status")
    "Successfully added" = false.
Proof.
  rewrite allocate_after_for; simpl.
  destruct (after_for_inv headers rows brand_id api_key allocations s)
    as [_ _ Hun _ (prefs & reqs & _ & Hil & _ & Hret & _)].
  set (mid := after_for headers rows brand_id api_key allocations s) in *.
  intros [Hr|Hr]%elem_of_app.
  - rewrite Forall_forall in Hret.
    destruct (Hret r Hr) as [[_ ->]|(_ & e & ->)];
      unfold Py.get; by rewrite lookup_insert_eq.
  - rewrite Hun.
    + apply unprocessed_status. by eapply subseteq_drop.
    + intros Hr'.
      pose proof (unprocessed_NoDup rows) as Hnd.
      rewrite <-(take_drop (idx mid.1)) in Hnd.
      apply NoDup_app in Hnd as (_ & Hd & _). by apply (Hd r).
Qed.
End Retained.

Lemma row_in_order_status headers (d d' : Row) :
  "Status" ∈ headers →
  row_in_order headers d = row_in_order headers d' →
  Py.get d "Status" = Py.get d' "Status".
Proof.
  intros [i Hi]%list_elem_of_lookup_1 Heq.
  apply (f_equal (λ row, row !! i)) in Heq.
  rewrite !(row_in_order_lookup _ _ _ _ Hi) in Heq. congruence.
Qed.

Section Turns.
Context `{Externals}.
Variables (headers : list string) (unprocessed : list Ref).
Variables (brand_id api_key : string).

Lemma upsert_answer e b k i fv v u s reply w :
  requests_post (upsert_request e b k i (default [] fv) v u) (world s)
  = (reply, w) →
  upsert_contact_in_bigmailer e b k i fv v u s
  = (answer reply,
     {| sheets := sheets s; world := w;
        posted := posted s ++ [upsert_request e b k i (default [] fv) v u];
        written := written s |}).
Proof.
  intros Hpost. unfold upsert_contact_in_bigmailer, answer. rewrite Hpost.
  destruct reply as [response|msg]; [|done].
  destruct (_ =? _)%Z; [|done]. by destruct (response_json response).
Qed.

Lemma loop_body_skipped list_id l s :
  Py.strip (Py.get (heap l !!! (unprocessed !!! idx l)) "Email") = "" →
  loop_body headers unprocessed brand_id api_key list_id (l, s)
  = ({| heap := set_status "Skipped: No Email" (unprocessed !!! idx l)
                  (heap l);
        idx := S (idx l); allocated := allocated l;
        processed_rows_data := processed_rows_data l;
        updated_rows_source :=
          updated_rows_source l ++ [unprocessed !!! idx l] |},
     st_write SkippedRow s).
Proof. intros Hempty. unfold loop_body. by rewrite Hempty. Qed.

Lemma loop_body_added list_id l s reply w j :
  let d := heap l !!! (unprocessed !!! idx l) in
  Py.strip (Py.get d "Email") ≠ "" →
  requests_post (request_for brand_id api_key list_id d) (world s)
  = (reply, w) →
  answer reply = inl j →
  let hp := set_status
              ("Successfully added on " +:+ strftime_now w +:+ " to "
               +:+ list_id) (unprocessed !!! idx l) (heap l) in
  loop_body headers unprocessed brand_id api_key list_id (l, s)
  = ({| heap := hp; idx := S (idx l); allocated := (allocated l + 1)%Z;
        processed_rows_data :=
          processed_rows_data l
          ++ [row_in_order headers (hp !!! (unprocessed !!! idx l))];
        updated_rows_source := updated_rows_source l |},
     {| sheets := sheets s; world := w;
        posted := posted s ++ [request_for brand_id api_key list_id d];
        written := written s ++ [Added (Py.strip (Py.get d "Email")) list_id]
     |}).
Proof.
  intros d Hfull Hpost Hj hp. unfold loop_body. fold d.
  apply truthy_true in Hfull. rewrite Hfull; simpl negb; cbv iota.
  unfold request_for in Hpost.
  by rewrite (upsert_answer _ _ _ _ (Some _) _ _ _ _ _ Hpost), Hj.
Qed.

Lemma loop_body_failed list_id l s reply w e :
  let d := heap l !!! (unprocessed !!! idx l) in
  Py.strip (Py.get d "Email") ≠ "" →
  requests_post (request_for brand_id api_key list_id d) (world s)
  = (reply, w) →
  answer reply = inr e →
  loop_body headers unprocessed brand_id api_key list_id (l, s)
  = ({| heap := set_status ("Error: " +:+ str e) (unprocessed !!! idx l)
                  (heap l);
        idx := S (idx l); allocated := (allocated l + 1)%Z;
        processed_rows_data := processed_rows_data l;
        updated_rows_source :=
          updated_rows_source l ++ [unprocessed !!! idx l] |},
     {| sheets := sheets s; world := w;
        posted := posted s ++ [request_for brand_id api_key list_id d];
        written :=
          written s
          ++ [Failed (Py.strip (Py.get d "Email")) ("Error: " +:+ str e)]
     |}).
Proof.
  intros d Hfull Hpost He. unfold loop_body. fold d.
  apply truthy_true in Hfull. rewrite Hfull; simpl negb; cbv iota.
  unfold request_for in Hpost.
  by rewrite (upsert_answer _ _ _ _ (Some _) _ _ _ _ _ Hpost), He.
Qed.

Lemma while_allocated_turn fuel list_id count l s :
  (allocated l < count)%Z → idx l < length unprocessed →
  while_allocated headers unprocessed brand_id api_key (S fuel) list_id
    count (l, s)
  = while_allocated headers unprocessed brand_id api_key fuel list_id count
      (loop_body headers unprocessed brand_id api_key list_id (l, s)).
Proof.
  intros Ha Hi. simpl. by rewrite !bool_decide_eq_true_2.
Qed.

Lemma while_allocated_full fuel list_id count l s :
  ¬ (allocated l < count)%Z →
  while_allocated headers unprocessed brand_id api_key fuel list_id count
    (l, s) = (l, s).
Proof.
  intros Ha. destruct fuel; [done|]. simpl.
  by rewrite bool_decide_eq_false_2.
Qed.
End Turns.

#[local] Arguments while_allocated : simpl never.
#[local] Arguments row_in_order : simpl never.

(** ** Queues of three rows *)

Lemma unprocessed_of_three (A B C : Row) :
  Py.startswith (Py.get A "Status") "Successfully added" = false →
  Py.startswith (Py.get B "Status") "Successfully added" = false →
  Py.startswith (Py.get C "Status") "Successfully added" = false →
  unprocessed_of [A; B; C] = [0; 1; 2].
Proof.
  intros HA HB HC. unfold unprocessed_of; simpl.
  rewrite !filter_cons, filter_nil.
  change ([A; B; C] !!! 0) with A. change ([A; B; C] !!! 1) with B.
  change ([A; B; C] !!! 2) with C. rewrite HA, HB, HC.
  by rewrite !decide_True by (by intros ?).
Qed.

Section EndToEnd.
Context `{Externals}.
Variables (headers : list string) (brand_id api_key list_id : string).
Variables (r1 r2 r3 : Row) (s : State) (today : string).
Hypothesis Hok :
  ∀ req w, ∃ response w' j,
    requests_post req w = (inl response, w')
    ∧ status_code response = 200%Z ∧ response_json response = inl j.
Hypothesis Htoday : ∀ w, strftime_now w = today.
Hypothesis Hs1 :
  Py.startswith (Py.get r1 "Status") "Successfully added" = false.
Hypothesis Hs2 :
  Py.startswith (Py.get r2 "Status") "Successfully added" = false.
Hypothesis Hs3 :
  Py.startswith (Py.get r3 "Status") "Successfully added" = false.
Hypothesis He1 : Py.strip (Py.get r1 "Email") ≠ "".
Hypothesis He2 : Py.strip (Py.get r2 "Email") = "".
Hypothesis He3 : Py.strip (Py.get r3 "Email") ≠ "".

Lemma answer_ok req w :
  ∃ reply w' j, requests_post req w = (reply, w') ∧ answer reply = inl j.
Proof.
  destruct (Hok req w) as (response & w' & j & Hpost & Hcode & Hj).
  exists (inl response), w', j. split; [done|].
  unfold answer. by rewrite Hcode, Hj.
Qed.

(** A row with an address, a row without, a row with an address, and a
    quota of 2: the row without an address does not use the quota. *)
Lemma skip_between_two :
  let ls' := allocate headers [r1; r2; r3] brand_id api_key
               [(list_id, 2%Z)] s in
  let added :=
    "Successfully added on " +:+ today +:+ " to " +:+ list_id in
  heap ls'.1
  = [ <["Status" := added]> r1; <["Status" := "Skipped: No Email"]> r2;
      <["Status" := added]> r3 ]
  ∧ processed_rows_data ls'.1
    = [ row_in_order headers (<["Status" := added]> r1);
        row_in_order headers (<["Status" := added]> r3) ]
  ∧ updated_rows_source ls'.1 = [1]
  ∧ posted ls'.2
    = posted s ++ [ request_for brand_id api_key list_id r1;
                    request_for brand_id api_key list_id r3 ].
Proof.
  intros ls' added. subst ls' added.
  unfold allocate. rewrite (unprocessed_of_three r1 r2 r3 Hs1 Hs2 Hs3).
  unfold for_allocations; simpl foldl. unfold for_body; simpl length.
  destruct (answer_ok (request_for brand_id api_key list_id r1) (world s))
    as (reply1 & w1 & j1 & Hp1 & Ha1).
  destruct (answer_ok (request_for brand_id api_key list_id r3) w1)
    as (reply3 & w3 & j3 & Hp3 & Ha3).
  rewrite while_allocated_turn by (simpl; lia).
  erewrite loop_body_added; [|exact He1|exact Hp1|exact Ha1].
  rewrite while_allocated_turn by (simpl; lia).
  rewrite loop_body_skipped by exact He2.
  rewrite while_allocated_turn by (simpl; lia).
  erewrite loop_body_added; [|exact He3|exact Hp3|exact Ha3].
  rewrite while_allocated_full by (simpl; lia).
  simpl. rewrite !Htoday. split_and!; [done..|by rewrite <-!app_assoc].
Qed.
End EndToEnd.

(** ** The claims *)

(** C1, as the code has it. While a (list identifier, quota) pair is
    processed, the rows taken from the queue are those between the cursor
    before and the cursor after.  Those among them whose trimmed e-mail is
    not empty are sent to BigMailer for this list, one request each and in
    order, and each counts toward the quota whether the call succeeds or
    fails: there are at most [max(0, quota)] of them.  A row skipped for
    its missing e-mail is taken without being counted. *)
Theorem quota_counts_upserts `{Externals}
    headers unprocessed brand_id api_key list_id count l s :
  let ls' := for_body headers unprocessed brand_id api_key (l, s)
               (list_id, count) in
  let taken := take (idx ls'.1 - idx l) (drop (idx l) unprocessed) in
  idx l ≤ idx ls'.1
  ∧ ∃ reqs,
      posted ls'.2 = posted s ++ reqs
      ∧ email <$> reqs
        = filter (λ e, e ≠ "") (email_of (heap l) <$> taken)
      ∧ Forall (λ q, list_ids q = [list_id]) reqs
      ∧ (Z.of_nat (length reqs) ≤ Z.max 0 count)%Z.
Proof.
  intros ls' taken.
  destruct (for_body_counted headers unprocessed brand_id api_key
              list_id count l s)
    as [Hidx _ (reqs & Hpo & Hem & Hlists & _ & Hle)].
  split; [done|]. by exists reqs.
Qed.

(** C1, as stated, fails: with a quota of 1, the pair takes two rows from
    the queue [[{Email: ""}, {Email: "a@x.com"}]]. *)
Lemma quota_exceeded_by_skipped_rows :
  let rows : list Row := [ {["Email" := ""]}; {["Email" := "a@x.com"]} ] in
  let E := Demo.always_ok in
  let ls' :=
    @for_body E ["Email"; "Status"] (unprocessed_of rows) "brand" "key"
      (Demo.locals_141 rows, Demo.start E ∅ ()) ("L", 1%Z) in
  idx ls'.1 - 0 = 2 ∧ ¬ (Z.of_nat (idx ls'.1 - 0) ≤ 1)%Z.
Proof. vm_compute. split; [done|]. by intros ?. Qed.

(** C2, as the code has it. For the queue
    [[{Email: "a@x.com"}, {Email: ""}, {Email: "b@x.com"}]] and the
    allocation [[(ListX, 2)]], when every call succeeds: record 1 is
    processed with the status "Successfully added on <today> to ListX";
    record 2 is retained with the status "Skipped: No Email" and does not
    use the quota; record 3 is taken as the second record of the quota and
    processed too.  [processed] has 2 rows and [retained] has 1. *)
Theorem end_to_end `{Externals} headers brand_id api_key s today :
  (∀ req w, ∃ response w' j,
     requests_post req w = (inl response, w')
     ∧ status_code response = 200%Z ∧ response_json response = inl j) →
  (∀ w, strftime_now w = today) →
  let r1 : Row := {["Email" := "a@x.com"]} in
  let r2 : Row := {["Email" := ""]} in
  let r3 : Row := {["Email" := "b@x.com"]} in
  let added := "Successfully added on " +:+ today +:+ " to ListX" in
  let ls' := allocate headers [r1; r2; r3] brand_id api_key
               [("ListX", 2%Z)] s in
  processed_rows_data ls'.1
  = [ row_in_order headers (<["Status" := added]> r1);
      row_in_order headers (<["Status" := added]> r3) ]
  ∧ new_source_data headers ls'.1
    = [ row_in_order headers (<["Status" := "Skipped: No Email"]> r2) ]
  ∧ updated_rows_source ls'.1 = [1]
  ∧ length (processed_rows_data ls'.1) = 2
  ∧ length (updated_rows_source ls'.1) = 1
  ∧ email <$> drop (length (posted s)) (posted ls'.2)
    = ["a@x.com"; "b@x.com"].
Proof.
  intros Hok Htoday r1 r2 r3 added ls'.
  assert (Hs : ∀ d : Row,
    d !! "Status" = None →
    Py.startswith (Py.get d "Status") "Successfully added" = false).
  { intros d Hd. unfold Py.get. by rewrite Hd. }
  destruct (skip_between_two headers brand_id api_key "ListX" r1 r2 r3 s today
              Hok Htoday (Hs r1 eq_refl) (Hs r2 eq_refl) (Hs r3 eq_refl))
    as (Hheap & Hproc & Hupd & Hpo); [by vm_compute..|].
  fold ls' added in Hheap, Hproc, Hupd, Hpo.
  unfold new_source_data. rewrite Hheap, Hproc, Hupd, Hpo.
  rewrite drop_app_length. by split_and!.
Qed.

(** C2 in a world where every request gets a 200. *)
Lemma end_to_end_witness :
  let E := Demo.always_ok in
  let r1 : Row := {["Email" := "a@x.com"]} in
  let r2 : Row := {["Email" := ""]} in
  let r3 : Row := {["Email" := "b@x.com"]} in
  let added := "Successfully added on " +:+ "2024-05-01" +:+ " to ListX" in
  let ls' := @allocate E ["Email"; "Status"] [r1; r2; r3] "brand" "key"
               [("ListX", 2%Z)] (Demo.start E ∅ ()) in
  processed_rows_data ls'.1
  = [ row_in_order ["Email"; "Status"] (<["Status" := added]> r1);
      row_in_order ["Email"; "Status"] (<["Status" := added]> r3) ]
  ∧ new_source_data ["Email"; "Status"] ls'.1
    = [ row_in_order ["Email"; "Status"]
          (<["Status" := "Skipped: No Email"]> r2) ]
  ∧ updated_rows_source ls'.1 = [1]
  ∧ length (processed_rows_data ls'.1) = 2
  ∧ length (updated_rows_source ls'.1) = 1
  ∧ email <$> drop (length (posted (Demo.start E ∅ ()))) (posted ls'.2)
    = ["a@x.com"; "b@x.com"].
Proof.
  apply (@end_to_end Demo.always_ok ["Email"; "Status"] "brand" "key"
           (Demo.start Demo.always_ok ∅ ()) "2024-05-01").
  - intros req w. by exists {| status_code := 200; text := "{}" |}, w, ().
  - reflexivity.
Defined.

(** C2, as stated, fails: in a world where every call succeeds, the run
    does not leave 1 processed row and 2 retained rows, and record 3 is
    not among the retained rows. *)
Lemma end_to_end_as_stated_fails :
  let E := Demo.always_ok in
  let rows : list Row :=
    [ {["Email" := "a@x.com"]}; {["Email" := ""]}; {["Email" := "b@x.com"]} ] in
  let ls' := @allocate E ["Email"; "Status"] rows "brand" "key"
               [("ListX", 2%Z)] (Demo.start E ∅ ()) in
  ¬ (length (processed_rows_data ls'.1) = 1
     ∧ length (updated_rows_source ls'.1) = 2)
  ∧ processed_rows_data ls'.1
    = [ ["a@x.com"; "Successfully added on 2024-05-01 to ListX"];
        ["b@x.com"; "Successfully added on 2024-05-01 to ListX"] ]
  ∧ updated_rows_source ls'.1 = [1].
Proof. vm_compute. split; [by intros [? _]|done]. Qed.

(** C3, as the code has it. In a call that returns, a row that the
    filter left out is in neither output list, and the final overwrite
    removes it from the source sheet: the sheet then holds the headers
    and the retained rows, and none of its lines is the excluded row. *)
Theorem excluded_rows_overwritten `{Externals}
    spreadsheet_id source_sheet_name target_sheet_name brand_id api_key
    allocations s s' headers rows :
  source_sheet_name ≠ target_sheet_name →
  fetch_sheet_data spreadsheet_id source_sheet_name s = Some (headers, rows) →
  process_contacts spreadsheet_id source_sheet_name target_sheet_name
    brand_id api_key allocations s = (Returned, s') →
  let l' := (allocate headers rows brand_id api_key allocations s).1 in
  ∀ r,
    r ∈ excluded_of rows →
    sheets s' !! (spreadsheet_id, source_sheet_name)
    = Some (headers :: new_source_data headers l')
    ∧ (r ∉ updated_rows_source l')
    ∧ (∃ prefs,
         processed_rows_data l'
         = (λ r, row_in_order headers (heap l' !!! r)) <$> prefs
         ∧ r ∉ prefs)
    ∧ row_in_order headers (rows !!! r)
      ∉ headers :: new_source_data headers l'.
Proof.
  intros Hne Hfetch Hrun l' r Hr. subst l'.
  destruct (allocate_routed headers rows brand_id api_key allocations s)
    as (prefs & Hproc & Hil & _).
  assert (Hout : r ∉ unprocessed_of rows).
  { intros Hq.
    eapply (interleave_disjoint _ _ _ r (unprocessed_excluded rows));
      [apply NoDup_seq|done..]. }
  assert (Hlen : r < length rows).
  { apply list_elem_of_filter in Hr as [_ Hr%elem_of_seq]. lia. }
  pose proof (excluded_status rows r Hr) as Hadded.
  assert (Hstatus : "Status" ∈ headers).
  { eapply fetch_sheet_data_keys with (d := rows !!! r); [done| |].
    - apply list_elem_of_lookup_2 with r.
      by apply list_lookup_lookup_total_lt.
    - unfold Py.get in Hadded.
      destruct ((rows !!! r) !! "Status"); [done|discriminate]. }
  split_and!.
  - destruct rows as [|row rows']; [by apply elem_of_nil in Hr|].
    by eapply process_contacts_source.
  - intros Hq. apply Hout, (interleave_elem_of _ _ _ r Hil). by right.
  - exists prefs. split; [done|].
    intros Hq. apply Hout, (interleave_elem_of _ _ _ r Hil). by left.
  - intros [Heq|Hin]%elem_of_cons.
    + apply list_elem_of_lookup_1 in Hstatus as [i Hi].
      apply (f_equal (λ row, row !! i)) in Heq.
      rewrite (row_in_order_lookup _ _ _ _ Hi), Hi in Heq.
      injection Heq as Heq. by rewrite Heq in Hadded.
    + apply list_elem_of_fmap in Hin as (r' & Heq & Hr').
      apply (row_in_order_status _ _ _ Hstatus) in Heq.
      pose proof (retained_status headers rows brand_id api_key allocations
                    s r' Hr') as Hkept.
      rewrite <-Heq in Hkept. congruence.
Qed.

Lemma excluded_rows_overwritten_witness :
  let E := Demo.always_ok in
  let s := Demo.start E Demo.two_sheets () in
  let run := @process_contacts E "doc" "ContactsToAdd" "ProcessedContacts"
               "brand" "key" [("L", 0%Z)] s in
  let headers := ["Email"; "Status"] in
  let rows : list Row :=
    [ {["Email" := "a@x.com";
        "Status" := "Successfully added on 2024-04-30 to L"]};
      {["Email" := "b@x.com"; "Status" := ""]} ] in
  let l' := (@allocate E headers rows "brand" "key" [("L", 0%Z)] s).1 in
  0 ∈ excluded_of rows
  ∧ sheets run.2 !! ("doc", "ContactsToAdd")
    = Some (headers :: new_source_data headers l')
  ∧ (0 ∉ updated_rows_source l')
  ∧ (∃ prefs,
       processed_rows_data l'
       = (λ r, row_in_order headers (heap l' !!! r)) <$> prefs
       ∧ 0 ∉ prefs)
  ∧ (row_in_order headers (rows !!! 0)
     ∉ headers :: new_source_data headers l').
Proof.
  intros E s run headers rows l'.
  assert (Hin : 0 ∈ excluded_of rows) by (vm_compute; by left).
  split; [exact Hin|].
  refine (@excluded_rows_overwritten E "doc" "ContactsToAdd"
            "ProcessedContacts" "brand" "key" [("L", 0%Z)] s run.2 headers
            rows _ _ _ 0 Hin).
  - discriminate.
  - by vm_compute.
  - by vm_compute.
Defined.

(** C3, as stated, fails: the row of the source sheet that was already
    added is in the sheet before the call and is not in it after. *)
Lemma excluded_row_gone_from_source :
  let E := Demo.always_ok in
  let s := Demo.start E Demo.two_sheets () in
  let run := @process_contacts E "doc" "ContactsToAdd" "ProcessedContacts"
               "brand" "key" [("L", 0%Z)] s in
  let row := ["a@x.com"; "Successfully added on 2024-04-30 to L"] in
  Py.startswith "Successfully added on 2024-04-30 to L" "Successfully added"
  = true
  ∧ (∃ before, sheets s !! ("doc", "ContactsToAdd") = Some before
               ∧ row ∈ before)
  ∧ run.1 = Returned
  ∧ ∃ after, sheets run.2 !! ("doc", "ContactsToAdd") = Some after
             ∧ after = [ ["Email"; "Status"]; ["b@x.com"; ""] ]
             ∧ row ∉ after.
Proof.
  split_and!; [by vm_compute| |by vm_compute|].
  - eexists. split; [by vm_compute|]. apply elem_of_cons; right. by left.
  - eexists. split_and!; [by vm_compute|done|].
    intros Hin.
    repeat (apply elem_of_cons in Hin as [Hin|Hin]; [discriminate|]).
    by apply elem_of_nil in Hin.
Qed.

(** C4. Conservation: the rows read from the source sheet are split among
    the processed rows, the retained rows and the rows the filter left
    out; the three sizes add up to the number of rows read, and the
    references of the three lists together are exactly the references of
    the rows read, each once. *)
Theorem conservation `{Externals} headers rows brand_id api_key allocations s :
  let l' := (allocate headers rows brand_id api_key allocations s).1 in
  length (processed_rows_data l') + length (updated_rows_source l')
  + length (excluded_of rows) = length rows
  ∧ ∃ prefs,
      processed_rows_data l'
      = (λ r, row_in_order headers (heap l' !!! r)) <$> prefs
      ∧ prefs ++ updated_rows_source l' ++ excluded_of rows
        ≡ₚ seq 0 (length rows).
Proof.
  intros l'. subst l'.
  destruct (allocate_routed headers rows brand_id api_key allocations s)
    as (prefs & Hproc & Hil & _).
  assert (Hperm : prefs ++ updated_rows_source
                    (allocate headers rows brand_id api_key allocations s).1
                  ++ excluded_of rows
                  ≡ₚ seq 0 (length rows)).
  { rewrite app_assoc, (interleave_perm _ _ _ Hil).
    apply interleave_perm, unprocessed_excluded. }
  split; [|by exists prefs].
  apply Permutation_length in Hperm.
  rewrite !length_app, length_seq in Hperm.
  rewrite Hproc, length_fmap. lia.
Qed.

(** C5, as the code has it. When [requests.post] returns a response, the
    call fails with the exception that carries the status code and the
    body exactly when the status code is not 200; a response with status
    200 whose body decodes as JSON is a success. *)
Theorem upsert_fails_unless_200 `{Externals}
    email brand_id api_key list_id field_values validate unsubscribe_all
    s response w :
  requests_post
    (upsert_request email brand_id api_key list_id (default [] field_values)
       validate unsubscribe_all) (world s) = (inl response, w) →
  let result :=
    (upsert_contact_in_bigmailer email brand_id api_key list_id field_values
       validate unsubscribe_all s).1 in
  (result = inr (UpsertFailed (status_code response) (text response))
   ↔ status_code response ≠ 200%Z)
  ∧ (status_code response = 200%Z →
     ∀ j, response_json response = inl j → result = inl j)
  ∧ str (UpsertFailed (status_code response) (text response))
    = "Upsert failed with " +:+ pretty (status_code response) +:+ ": "
      +:+ text response.
Proof.
  intros Hpost result. subst result.
  unfold upsert_contact_in_bigmailer. rewrite Hpost.
  destruct (Z.eqb_spec (status_code response) 200) as [Heq|Hne].
  - split_and!; [|intros _ j ->; done|done].
    split; [|done]. by destruct (response_json response).
  - by split_and!.
Qed.

(** C5 at a response with status 500. *)
Lemma upsert_fails_unless_200_witness :
  let E := Demo.second_fails in
  let s := Demo.start E ∅ 1 in
  let response := {| status_code := 500; text := "oops" |} in
  let result :=
    (@upsert_contact_in_bigmailer E "a@x.com" "brand" "key" "L" None false
       false s).1 in
  @requests_post E
    (upsert_request "a@x.com" "brand" "key" "L" [] false false) (world s)
  = (inl response, 2)
  ∧ (result = inr (UpsertFailed 500 "oops") ↔ 500%Z ≠ 200%Z)
  ∧ (500%Z = 200%Z →
     ∀ j, @response_json E response = inl j → result = inl j)
  ∧ str (UpsertFailed 500 "oops") = "Upsert failed with 500: oops".
Proof.
  split; [reflexivity|].
  exact (@upsert_fails_unless_200 Demo.second_fails "a@x.com" "brand" "key"
           "L" None false false (Demo.start Demo.second_fails ∅ 1)
           {| status_code := 500; text := "oops" |} 2 eq_refl).
Defined.

(** C5, as stated, fails: a response with status 201 is in the 2xx range
    and the call fails. *)
Lemma upsert_201_fails :
  let E := Demo.always_created in
  (200 ≤ 201 < 300)%Z
  ∧ (@upsert_contact_in_bigmailer E "a@x.com" "brand" "key" "L" None false
       false (Demo.start E ∅ ())).1
    = inr (UpsertFailed 201 "{}").
Proof. split; [lia|reflexivity]. Qed.

(** C6, as the code has it. A row of the queue whose trimmed e-mail is
    empty is always retained, and no request is sent for it: the requests
    of the run are those of the rows taken from the queue whose trimmed
    e-mail is not empty.  If the cursor reached the row, its status is
    "Skipped: No Email" and nothing else of it changed; if the quotas ran
    out before, the row is retained as it was read. *)
Theorem empty_email_retained `{Externals}
    headers rows brand_id api_key allocations s :
  let ls' := allocate headers rows brand_id api_key allocations s in
  let cursor :=
    idx (after_for headers rows brand_id api_key allocations s).1 in
  (∀ i r,
     unprocessed_of rows !! i = Some r → email_of rows r = "" →
     r ∈ updated_rows_source ls'.1
     ∧ (i < cursor →
        heap ls'.1 !!! r = <["Status" := "Skipped: No Email"]> (rows !!! r))
     ∧ (cursor ≤ i → heap ls'.1 !!! r = rows !!! r))
  ∧ ∃ reqs,
      posted ls'.2 = posted s ++ reqs
      ∧ email <$> reqs
        = filter (λ e, e ≠ "")
            (email_of rows <$> take cursor (unprocessed_of rows))
      ∧ Forall (λ q, email q ≠ "") reqs.
Proof.
  intros ls' cursor. subst ls' cursor.
  rewrite allocate_after_for; simpl.
  destruct (after_for_inv headers rows brand_id api_key allocations s)
    as [_ _ Hun _ (prefs & reqs & _ & Hil & Hadd & Hret & Hpo & Hem)].
  set (mid := after_for headers rows brand_id api_key allocations s) in *.
  split.
  - intros i r Hi Hempty.
    destruct (decide (i < idx mid.1)) as [Hlt|Hge].
    + assert (Hr : r ∈ take (idx mid.1) (unprocessed_of rows))
        by (apply elem_of_take; eauto).
      apply (interleave_elem_of _ _ _ r Hil) in Hr as [Hr|Hr].
      { rewrite Forall_forall in Hadd. by destruct (Hadd r Hr). }
      split_and!; [set_solver| |lia].
      intros _. rewrite Forall_forall in Hret.
      destruct (Hret r Hr) as [[_ ?]|[? _]]; done.
    + assert (Hr : r ∈ drop (idx mid.1) (unprocessed_of rows)).
      { apply list_elem_of_lookup_2 with (i - idx mid.1).
        rewrite lookup_drop, <-Hi. f_equal. lia. }
      split_and!; [set_solver|lia|].
      intros _. apply Hun. intros (j & Hj & Hlt)%elem_of_take.
      pose proof (NoDup_lookup _ _ _ _ (unprocessed_NoDup rows) Hi Hj). lia.
  - exists reqs. split_and!; [done..|].
    apply Forall_forall. intros q Hq.
    apply (list_elem_of_fmap_2 email) in Hq. rewrite Hem in Hq.
    by apply list_elem_of_filter in Hq as [? _].
Qed.

(** C6, as stated, fails: with a quota of 0 the row of the queue
    [[{Email: ""}]] is retained with the status it had. *)
Lemma empty_email_not_reached :
  let E := Demo.always_ok in
  let rows : list Row := [ {["Email" := ""]} ] in
  let ls' := @allocate E ["Email"; "Status"] rows "brand" "key" [("L", 0%Z)]
               (Demo.start E ∅ ()) in
  unprocessed_of rows = [0] ∧ email_of rows 0 = ""
  ∧ updated_rows_source ls'.1 = [0]
  ∧ Py.get (heap ls'.1 !!! 0) "Status" = ""
  ∧ Py.get (heap ls'.1 !!! 0) "Status" ≠ "Skipped: No Email".
Proof. vm_compute. by split_and!. Qed.

(** C7. With the queue [A, B, C] and one list of quota 3, when the call
    for B fails and the calls for A and C succeed, A and C are processed,
    B is retained with a status that begins "Error:", and all three calls
    are made. *)
Theorem failure_isolation `{Externals}
    headers (A B C : Row) brand_id api_key list_id s
    replyA replyB replyC w1 w2 w3 jA e jC :
  Py.startswith (Py.get A "Status") "Successfully added" = false →
  Py.startswith (Py.get B "Status") "Successfully added" = false →
  Py.startswith (Py.get C "Status") "Successfully added" = false →
  Py.strip (Py.get A "Email") ≠ "" →
  Py.strip (Py.get B "Email") ≠ "" →
  Py.strip (Py.get C "Email") ≠ "" →
  requests_post (request_for brand_id api_key list_id A) (world s)
  = (replyA, w1) →
  answer replyA = inl jA →
  requests_post (request_for brand_id api_key list_id B) w1 = (replyB, w2) →
  answer replyB = inr e →
  requests_post (request_for brand_id api_key list_id C) w2 = (replyC, w3) →
  answer replyC = inl jC →
  let ls' := allocate headers [A; B; C] brand_id api_key [(list_id, 3%Z)] s in
  processed_rows_data ls'.1
  = [ row_in_order headers
        (<["Status" := "Successfully added on " +:+ strftime_now w1
                       +:+ " to " +:+ list_id]> A);
      row_in_order headers
        (<["Status" := "Successfully added on " +:+ strftime_now w3
                       +:+ " to " +:+ list_id]> C) ]
  ∧ updated_rows_source ls'.1 = [1]
  ∧ heap ls'.1 !!! 1 = <["Status" := "Error: " +:+ str e]> B
  ∧ Py.startswith (Py.get (heap ls'.1 !!! 1) "Status") "Error:" = true
  ∧ posted ls'.2
    = posted s ++ [ request_for brand_id api_key list_id A;
                    request_for brand_id api_key list_id B;
                    request_for brand_id api_key list_id C ].
Proof.
  intros HsA HsB HsC HeA HeB HeC HpA HaA HpB HaB HpC HaC ls'. subst ls'.
  unfold allocate. rewrite (unprocessed_of_three A B C HsA HsB HsC).
  unfold for_allocations; simpl foldl. unfold for_body; simpl length.
  rewrite while_allocated_turn by (simpl; lia).
  erewrite loop_body_added; [|exact HeA|exact HpA|exact HaA].
  rewrite while_allocated_turn by (simpl; lia).
  erewrite loop_body_failed; [|exact HeB|exact HpB|exact HaB].
  rewrite while_allocated_turn by (simpl; lia).
  erewrite loop_body_added; [|exact HeC|exact HpC|exact HaC].
  rewrite while_allocated_full by (simpl; lia).
  simpl. split_and!; [done..| |by rewrite <-!app_assoc].
  unfold Py.get. by rewrite lookup_insert_eq.
Qed.

(** C7 in a world where the second request gets a 500. *)
Lemma failure_isolation_witness :
  let E := Demo.second_fails in
  let A : Row := {["Email" := "a@x.com"]} in
  let B : Row := {["Email" := "b@x.com"]} in
  let C : Row := {["Email" := "c@x.com"]} in
  let ls' := @allocate E ["Email"; "Status"] [A; B; C] "brand" "key"
               [("L", 3%Z)] (Demo.start E ∅ 0) in
  processed_rows_data ls'.1
  = [ row_in_order ["Email"; "Status"]
        (<["Status" := "Successfully added on " +:+ @strftime_now E 1
                       +:+ " to " +:+ "L"]> A);
      row_in_order ["Email"; "Status"]
        (<["Status" := "Successfully added on " +:+ @strftime_now E 3
                       +:+ " to " +:+ "L"]> C) ]
  ∧ updated_rows_source ls'.1 = [1]
  ∧ heap ls'.1 !!! 1
    = <["Status" := "Error: " +:+ str (UpsertFailed 500 "oops")]> B
  ∧ Py.startswith (Py.get (heap ls'.1 !!! 1) "Status") "Error:" = true
  ∧ posted ls'.2
    = [] ++ [ request_for "brand" "key" "L" A;
              request_for "brand" "key" "L" B;
              request_for "brand" "key" "L" C ].
Proof.
  intros E A B C.
  apply (@failure_isolation E ["Email"; "Status"] A B C "brand" "key" "L"
           (Demo.start E ∅ 0)
           (inl {| status_code := 200; text := "{}" |})
           (inl {| status_code := 500; text := "oops" |})
           (inl {| status_code := 200; text := "{}" |})
           1 2 3 () (UpsertFailed 500 "oops") ());
    try reflexivity; by vm_compute.
Defined.

(** C8. When every quota is 0, nothing is processed, no request is sent,
    no row dict is changed, and the retained rows are the queue, in its
    order. *)
Theorem zero_quotas_retain_queue `{Externals}
    headers rows brand_id api_key allocations s :
  Forall (λ item : string * Z, item.2 = 0%Z) allocations →
  let ls' := allocate headers rows brand_id api_key allocations s in
  processed_rows_data ls'.1 = []
  ∧ updated_rows_source ls'.1 = unprocessed_of rows
  ∧ heap ls'.1 = rows
  ∧ new_source_data headers ls'.1
    = (λ r, row_in_order headers (rows !!! r)) <$> unprocessed_of rows
  ∧ posted ls'.2 = posted s.
Proof.
  intros Hzero ls'. subst ls'. unfold new_source_data.
  rewrite allocate_after_for; simpl.
  destruct (for_allocations_zero headers (unprocessed_of rows) brand_id
              api_key allocations
              {| heap := rows; idx := 0; allocated := 0;
                 processed_rows_data := []; updated_rows_source := [] |}
              s Hzero) as (Hheap & Hidx & Hproc & Hupd & Hpo & _).
  fold (after_for headers rows brand_id api_key allocations s) in *.
  simpl in *. by rewrite Hheap, Hidx, Hproc, Hupd, Hpo.
Qed.

(** C8 at two lists of quota 0 and a sheet of three rows, one of them
    already added. *)
Lemma zero_quotas_retain_queue_witness :
  let E := Demo.always_ok in
  let rows : list Row :=
    [ {["Email" := "a@x.com"]};
      {["Email" := "b@x.com";
        "Status" := "Successfully added on 2024-04-30 to L1"]};
      {["Email" := ""]} ] in
  let allocations := [("L1", 0%Z); ("L2", 0%Z)] in
  let ls' := @allocate E ["Email"; "Status"] rows "brand" "key" allocations
               (Demo.start E ∅ ()) in
  Forall (λ item : string * Z, item.2 = 0%Z) allocations
  ∧ processed_rows_data ls'.1 = []
  ∧ updated_rows_source ls'.1 = [0; 2]
  ∧ heap ls'.1 = rows
  ∧ new_source_data ["Email"; "Status"] ls'.1
    = [["a@x.com"; ""]; [""; ""]]
  ∧ posted ls'.2 = [].
Proof.
  intros E rows allocations ls'.
  assert (Hzero : Forall (λ item : string * Z, item.2 = 0%Z) allocations)
    by (by repeat constructor).
  split; [exact Hzero|].
  exact (@zero_quotas_retain_queue E ["Email"; "Status"] rows "brand" "key"
           allocations (Demo.start E ∅ ()) Hzero).
Defined.

(** C9. Only the status changes: every other field of every row dict is
    after the run what it was when read, and every cell of a processed or
    retained output row, outside the Status column, is the field of a row
    of the queue as it was read. *)
Theorem only_status_changes `{Externals}
    headers rows brand_id api_key allocations s :
  let l' := (allocate headers rows brand_id api_key allocations s).1 in
  (∀ r k, k ≠ "Status" → (heap l' !!! r) !! k = (rows !!! r) !! k)
  ∧ (∀ row,
       row ∈ processed_rows_data l' ∨ row ∈ new_source_data headers l' →
       ∃ r, r ∈ unprocessed_of rows
            ∧ ∀ i h, headers !! i = Some h → h ≠ "Status" →
                     row !! i = Some (Py.get (rows !!! r) h)).
Proof.
  intros l'. split; [intros; by apply allocate_fields|].
  destruct (allocate_routed headers rows brand_id api_key allocations s)
    as (prefs & Hproc & Hil & _).
  intros row Hrow.
  assert (∃ r, r ∈ unprocessed_of rows
               ∧ row = row_in_order headers (heap l' !!! r)) as (r & Hr & ->).
  { destruct Hrow as [Hrow|Hrow].
    - subst l'. rewrite Hproc in Hrow.
      apply list_elem_of_fmap in Hrow as (r & -> & Hr). exists r.
      split; [|done]. apply (interleave_elem_of _ _ _ r Hil). by left.
    - apply list_elem_of_fmap in Hrow as (r & -> & Hr). exists r.
      split; [|done]. apply (interleave_elem_of _ _ _ r Hil). by right. }
  exists r. split; [done|]. intros i h Hh Hne.
  rewrite (row_in_order_lookup _ _ _ _ Hh). f_equal.
  by apply get_fields, allocate_fields.
Qed.

(** C10. The retained rows are a subsequence of the queue, in the order
    of the queue (and so in the order of the source sheet). *)
Theorem retained_in_queue_order `{Externals}
    headers rows brand_id api_key allocations s :
  let l' := (allocate headers rows brand_id api_key allocations s).1 in
  updated_rows_source l' `sublist_of` unprocessed_of rows
  ∧ updated_rows_source l' `sublist_of` seq 0 (length rows).
Proof.
  intros l'.
  destruct (allocate_routed headers rows brand_id api_key allocations s)
    as (prefs & _ & Hil & _).
  assert (updated_rows_source l' `sublist_of` unprocessed_of rows)
    by by eapply interleave_sublist_r.
  split; [done|]. etrans; [done|].
  eapply interleave_sublist_l, unprocessed_excluded.
Qed.

(** * Further properties *)

(** ** Dicts made by [dict(zip(...))] *)

Lemma foldl_insert_lookup_ne (kvs : list (string * string)) (d : Row) k :
  k ∉ kvs.*1 →
  foldl (λ d kv, <[kv.1 := kv.2]> d) d kvs !! k = d !! k.
Proof.
  revert d. induction kvs as [|[k' v'] kvs IH]; intros d Hk; [done|].
  simpl in *. apply not_elem_of_cons in Hk as [Hne Hk].
  rewrite IH by done. by rewrite lookup_insert_ne.
Qed.

Lemma foldl_insert_lookup (kvs : list (string * string)) (d : Row) k v :
  NoDup kvs.*1 → (k, v) ∈ kvs →
  foldl (λ d kv, <[kv.1 := kv.2]> d) d kvs !! k = Some v.
Proof.
  revert d. induction kvs as [|[k' v'] kvs IH]; intros d Hnd Hin.
  { by apply elem_of_nil in Hin. }
  simpl in *. apply NoDup_cons in Hnd as [Hfresh Hnd].
  apply elem_of_cons in Hin as [[= <- <-]|Hin]; [|by apply IH].
  rewrite foldl_insert_lookup_ne by done. by rewrite lookup_insert_eq.
Qed.

Lemma foldl_insert_dom (kvs : list (string * string)) (d : Row) :
  dom (foldl (λ d kv, <[kv.1 := kv.2]> d) d kvs)
  = dom d ∪ list_to_set kvs.*1.
Proof.
  revert d. induction kvs as [|[k' v'] kvs IH]; intros d; simpl.
  - by rewrite (right_id_L ∅ (∪)).
  - rewrite IH, dom_insert_L.
    by rewrite (assoc_L (∪)), (comm_L (∪) (dom d)).
Qed.

Lemma dict_zip_dom ks vs :
  length ks ≤ length vs → dom (Py.dict_zip ks vs) = list_to_set ks.
Proof.
  intros Hlen. unfold Py.dict_zip.
  rewrite foldl_insert_dom, fst_zip by done.
  by rewrite dom_empty_L, (left_id_L ∅ (∪)).
Qed.

Lemma dict_zip_lookup ks vs i k v :
  NoDup ks → ks !! i = Some k → vs !! i = Some v →
  Py.dict_zip ks vs !! k = Some v.
Proof.
  intros Hnd Hk Hv. unfold Py.dict_zip. apply foldl_insert_lookup.
  - assert (Hsub : ∀ ks vs : list string, (zip ks vs).*1 `sublist_of` ks).
    { clear. induction ks as [|a ks IH]; intros [|b vs]; simpl;
        [constructor|constructor|apply sublist_nil_l|constructor; apply IH]. }
    by eapply sublist_NoDup.
  - apply list_elem_of_lookup_2 with i.
    by rewrite lookup_zip_with, Hk; simpl; rewrite Hv.
Qed.

(** A dict made from the headers and a function of them. *)
Lemma dict_zip_fmap ks (f : string → string) k :
  Py.dict_zip ks (f <$> ks) !! k
  = if decide (k ∈ ks) then Some (f k) else None.
Proof.
  unfold Py.dict_zip.
  assert (Hgen : ∀ d : Row,
    foldl (λ d kv, <[kv.1 := kv.2]> d) d (zip ks (f <$> ks)) !! k
    = if decide (k ∈ ks) then Some (f k) else d !! k).
  { induction ks as [|a ks IH]; intros d; simpl; [done|].
    rewrite IH. destruct (decide (k ∈ ks)) as [Hin|Hout].
    - rewrite decide_True by (by right). done.
    - destruct (decide (a = k)) as [->|Hne].
      + rewrite decide_True by (by left). by rewrite lookup_insert_eq.
      + rewrite decide_False by (intros [?|?]%elem_of_cons; congruence).
        by rewrite lookup_insert_ne. }
  rewrite Hgen. by case_decide.
Qed.

Lemma padded_length headers row_data :
  length headers ≤ length (padded headers row_data).
Proof. unfold padded. rewrite length_app, length_replicate. lia. Qed.

Lemma padded_full headers row_data :
  length row_data = length headers → padded headers row_data = row_data.
Proof.
  intros Hlen. unfold padded. by rewrite Hlen, Nat.sub_diag, app_nil_r.
Qed.

Lemma row_in_order_dict_zip headers vs :
  NoDup headers → length headers ≤ length vs →
  row_in_order headers (Py.dict_zip headers vs) = take (length headers) vs.
Proof.
  intros Hnd Hlen. apply list_eq. intros i. unfold row_in_order.
  rewrite list_lookup_fmap.
  destruct (headers !! i) as [k|] eqn:Hk; simpl.
  - pose proof (lookup_lt_Some _ _ _ Hk) as Hi.
    destruct (lookup_lt_is_Some_2 vs i ltac:(lia)) as [v Hv].
    rewrite lookup_take_lt by done. rewrite Hv. f_equal.
    unfold Py.get. by rewrite (dict_zip_lookup _ _ _ _ _ Hnd Hk Hv).
  - apply lookup_ge_None in Hk. symmetry. apply lookup_ge_None.
    rewrite length_take. lia.
Qed.

Lemma reread_lookup headers d k :
  reread headers d !! k
  = if decide (k ∈ headers) then Some (Py.get d k) else None.
Proof.
  unfold reread. rewrite padded_full by apply length_fmap.
  apply dict_zip_fmap.
Qed.

Lemma reread_get headers d k :
  k ∈ headers → Py.get (reread headers d) k = Py.get d k.
Proof.
  intros Hk. unfold Py.get at 1. rewrite reread_lookup.
  by rewrite decide_True.
Qed.

Lemma reread_get_other headers d k :
  k ∉ headers → Py.get (reread headers d) k = "".
Proof.
  intros Hk. unfold Py.get. rewrite reread_lookup. by rewrite decide_False.
Qed.

Lemma filter_all {A} (P : A → Prop) `{!∀ x, Decision (P x)} (l : list A) :
  (∀ x, x ∈ l → P x) → filter P l = l.
Proof.
  induction l as [|x l IH]; intros Hall; [done|].
  rewrite filter_cons_True by (apply Hall; by left).
  f_equal. apply IH. intros y Hy. apply Hall. by right.
Qed.

Lemma get_insert_status (d : Row) msg :
  Py.get (<["Status" := msg]> d) "Status" = msg.
Proof. unfold Py.get. by rewrite lookup_insert_eq. Qed.

(** ** Reading and writing a sheet

    The service gives back the lines of a sheet as they were written:
    [values().get] does not trim them. *)

Section SheetFacts.
Context `{Externals}.

Lemma fetch_sheet_data_lines spreadsheet_id sheet_name s headers data_rows :
  sheets s !! (spreadsheet_id, sheet_name) = Some (headers :: data_rows) →
  fetch_sheet_data spreadsheet_id sheet_name s
  = Some (headers,
          (λ row_data, Py.dict_zip headers (padded headers row_data))
          <$> data_rows).
Proof.
  intros Hsheet. unfold fetch_sheet_data, values_get. by rewrite Hsheet.
Qed.

Lemma rewrite_sheet_data_some spreadsheet_id sheet_name headers data s :
  is_Some (sheets s !! (spreadsheet_id, sheet_name)) →
  rewrite_sheet_data spreadsheet_id sheet_name headers data s
  = Some (set_sheets
            (<[(spreadsheet_id, sheet_name) := headers :: data]> (sheets s))
            s).
Proof.
  intros [old Hold].
  unfold rewrite_sheet_data, values_clear, values_update.
  rewrite Hold; simpl. rewrite lookup_insert_eq; simpl.
  unfold set_sheets; simpl. by rewrite insert_insert_eq.
Qed.

(** X1. [fetch_sheet_data] raises exactly when the sheet does not exist.
    Otherwise it returns the first line as the headers and one dict for
    each line after it (none for an empty sheet), and the keys of every
    dict are exactly the headers, whatever the length of its line. *)
Theorem fetch_sheet_data_keyed_by_headers spreadsheet_id sheet_name s :
  match sheets s !! (spreadsheet_id, sheet_name) with
  | None => fetch_sheet_data spreadsheet_id sheet_name s = None
  | Some values =>
      ∃ rows,
        fetch_sheet_data spreadsheet_id sheet_name s
        = Some (default [] (head values), rows)
        ∧ length rows = length values - 1
        ∧ ∀ d, d ∈ rows → dom d = list_to_set (default [] (head values))
  end.
Proof.
  unfold fetch_sheet_data, values_get.
  destruct (sheets s !! _) as [[|headers data_rows]|]; simpl; [| |done].
  - exists []. split_and!; [done..|]. by intros d Hd%elem_of_nil.
  - eexists. split_and!; [done| |].
    + rewrite length_fmap. lia.
    + intros d (row_data & -> & _)%list_elem_of_fmap.
      apply dict_zip_dom, padded_length.
Qed.

(** X2. Reading then writing back: when the headers are distinct, the
    dict read from a line serialises, in the order of the headers, to
    that line padded with empty strings or cut to the number of
    headers. *)
Theorem fetch_then_row_in_order
    spreadsheet_id sheet_name s headers data_rows :
  sheets s !! (spreadsheet_id, sheet_name) = Some (headers :: data_rows) →
  NoDup headers →
  ∃ rows,
    fetch_sheet_data spreadsheet_id sheet_name s = Some (headers, rows)
    ∧ row_in_order headers <$> rows
      = (λ row_data, take (length headers) (padded headers row_data))
        <$> data_rows.
Proof.
  intros Hsheet Hnd. unfold fetch_sheet_data, values_get.
  rewrite Hsheet; simpl. eexists. split; [done|].
  rewrite <-list_fmap_compose. apply list_fmap_ext. intros i row_data _.
  simpl. apply row_in_order_dict_zip; [done|apply padded_length].
Qed.

(** X3. [rewrite_sheet_data] raises exactly when the sheet does not
    exist.  Otherwise the sheet holds afterwards the headers followed by
    the data and nothing of what it held before, and no other sheet, no
    request and no printed line is changed. *)
Theorem rewrite_sheet_data_overwrites
    spreadsheet_id sheet_name headers data s :
  match sheets s !! (spreadsheet_id, sheet_name) with
  | None =>
      rewrite_sheet_data spreadsheet_id sheet_name headers data s = None
  | Some _ =>
      ∃ s',
        rewrite_sheet_data spreadsheet_id sheet_name headers data s = Some s'
        ∧ sheets s'
          = <[(spreadsheet_id, sheet_name) := headers :: data]> (sheets s)
        ∧ world s' = world s ∧ posted s' = posted s
        ∧ written s' = written s
  end.
Proof.
  unfold rewrite_sheet_data, values_clear, values_update.
  destruct (sheets s !! _) as [old|] eqn:Hold; simpl; [|done].
  rewrite lookup_insert_eq; simpl. eexists. split; [done|]. simpl.
  by rewrite insert_insert_eq.
Qed.

(** X4. Writing then reading: after [rewrite_sheet_data] has written
    the dicts [ds] in the order of the headers, [fetch_sheet_data]
    returns the same headers and one dict for each of [ds], in order,
    which has the headers as its keys and under each of them the value
    that [d.get(h, "")] gave. *)
Theorem fetch_after_rewrite spreadsheet_id sheet_name headers ds s s' :
  rewrite_sheet_data spreadsheet_id sheet_name headers
    (row_in_order headers <$> ds) s = Some s' →
  fetch_sheet_data spreadsheet_id sheet_name s'
  = Some (headers, reread headers <$> ds)
  ∧ ∀ d k,
      reread headers d !! k
      = if decide (k ∈ headers) then Some (Py.get d k) else None.
Proof.
  intros Hrw. split; [|intros; apply reread_lookup].
  assert (Hsrc : is_Some (sheets s !! (spreadsheet_id, sheet_name))).
  { unfold rewrite_sheet_data, values_clear in Hrw.
    destruct (sheets s !! _); [done|discriminate]. }
  rewrite rewrite_sheet_data_some in Hrw by done. injection Hrw as <-.
  rewrite (fetch_sheet_data_lines _ _ _ headers (row_in_order headers <$> ds))
    by (simpl; by rewrite lookup_insert_eq).
  by rewrite <-list_fmap_compose.
Qed.
End SheetFacts.

(** X2 at a sheet with a short line and a long line. *)
Lemma fetch_then_row_in_order_witness :
  let E := Demo.always_ok in
  let g : Sheets :=
    {[ ("doc", "S") := [ ["Email"; "Status"]; ["a@x.com"];
                         ["b@x.com"; "Error: x"; "extra"] ] ]} in
  NoDup ["Email"; "Status"]
  ∧ ∃ rows,
      @fetch_sheet_data E "doc" "S" (Demo.start E g ())
      = Some (["Email"; "Status"], rows)
      ∧ row_in_order ["Email"; "Status"] <$> rows
        = (λ row_data, take 2 (padded ["Email"; "Status"] row_data))
          <$> [ ["a@x.com"]; ["b@x.com"; "Error: x"; "extra"] ].
Proof.
  intros E g.
  assert (Hnd : NoDup ["Email"; "Status"]).
  { refine (bool_decide_unpack (NoDup ["Email"; "Status"]) _). by vm_compute. }
  split; [exact Hnd|].
  apply (@fetch_then_row_in_order E "doc" "S" (Demo.start E g ())
           ["Email"; "Status"]
           [ ["a@x.com"]; ["b@x.com"; "Error: x"; "extra"] ]);
    [by vm_compute|exact Hnd].
Defined.

(** X4 at a sheet rewritten with one dict that has a key more and a key
    less than the headers. *)
Lemma fetch_after_rewrite_witness :
  let E := Demo.always_ok in
  let s := Demo.start E Demo.two_sheets () in
  let headers := ["Email"; "Status"] in
  let ds : list Row := [ {["Email" := "c@x.com"; "Tags" := "vip"]} ] in
  ∃ s',
    @rewrite_sheet_data E "doc" "ContactsToAdd" headers
      (row_in_order headers <$> ds) s = Some s'
    ∧ @fetch_sheet_data E "doc" "ContactsToAdd" s'
      = Some (headers, reread headers <$> ds)
    ∧ ∀ d k,
        reread headers d !! k
        = if decide (k ∈ headers) then Some (Py.get d k) else None.
Proof.
  intros E s headers ds. eexists. split; [by vm_compute|].
  apply (@fetch_after_rewrite E "doc" "ContactsToAdd" headers ds s).
  by vm_compute.
Defined.

(** ** A call of [process_contacts] and the sheets *)

Section RunFacts.
Context `{Externals}.

(** The rows of an empty sheet lead nowhere. *)
Lemma allocate_nil headers brand_id api_key allocations s :
  processed_rows_data (allocate headers [] brand_id api_key allocations s).1
  = []
  ∧ updated_rows_source (allocate headers [] brand_id api_key allocations s).1
    = [].
Proof.
  destruct (allocate_routed headers [] brand_id api_key allocations s)
    as (prefs & Hproc & Hil & _).
  apply interleave_length in Hil. change (unprocessed_of []) with (@nil nat) in Hil.
  simpl in Hil.
  destruct prefs; [|simpl in Hil; lia].
  destruct (updated_rows_source _); [|simpl in Hil; lia].
  by rewrite Hproc.
Qed.

(** What a call does once it has read at least one row, in terms of the
    outcome of lines 134-196. *)
Lemma process_contacts_unfold
    spreadsheet_id source_sheet_name target_sheet_name brand_id api_key
    allocations s headers row rows :
  fetch_sheet_data spreadsheet_id source_sheet_name s
  = Some (headers, row :: rows) →
  let al := allocate headers (row :: rows) brand_id api_key allocations s in
  let s2 :=
    set_sheets
      (<[(spreadsheet_id, source_sheet_name)
         := headers :: new_source_data headers al.1]> (sheets s)) al.2 in
  process_contacts spreadsheet_id source_sheet_name target_sheet_name
    brand_id api_key allocations s
  = match processed_rows_data al.1 with
    | [] => (Returned, st_write AllDone s2)
    | _ :: _ =>
        match sheets s2 !! (spreadsheet_id, target_sheet_name) with
        | None => (SheetsError spreadsheet_id target_sheet_name, s2)
        | Some old =>
            (Returned,
             st_write AllDone
               (st_write
                  (Appended (length (processed_rows_data al.1))
                     target_sheet_name)
                  (set_sheets
                     (<[(spreadsheet_id, target_sheet_name)
                        := old ++ processed_rows_data al.1]> (sheets s2))
                     s2)))
        end
    end.
Proof.
  intros Hfetch al s2. subst al s2. unfold process_contacts. rewrite Hfetch.
  pose proof (fetch_sheet_data_exists _ _ _ _ _ Hfetch) as Hsrc.
  pose proof (allocate_sheets headers (row :: rows) brand_id api_key
                allocations s) as Hsh.
  destruct (allocate _ _ _ _ _ _) as [l1 s1]; simpl in *.
  rewrite <-Hsh in Hsrc. rewrite rewrite_sheet_data_some by done.
  rewrite Hsh. destruct (processed_rows_data l1) as [|p ps]; [done|].
  unfold append_to_sheet, values_append.
  simpl. by destruct (<[_ := _]> (sheets s) !! _).
Qed.

(** X5. When the source sheet does not exist, is empty or holds its
    header line only, a call changes no sheet and sends no request; it
    raises in the first case and returns in the others. *)
Theorem process_contacts_nothing_to_read
    spreadsheet_id source_sheet_name target_sheet_name brand_id api_key
    allocations s :
  length (default [] (sheets s !! (spreadsheet_id, source_sheet_name))) ≤ 1 →
  let run := process_contacts spreadsheet_id source_sheet_name
               target_sheet_name brand_id api_key allocations s in
  sheets run.2 = sheets s ∧ posted run.2 = posted s ∧ world run.2 = world s
  ∧ run.1
    = match sheets s !! (spreadsheet_id, source_sheet_name) with
      | Some _ => Returned
      | None => SheetsError spreadsheet_id source_sheet_name
      end.
Proof.
  intros Hlen run. subst run.
  unfold process_contacts, fetch_sheet_data, values_get.
  destruct (sheets s !! _) as [[|headers [|row_data data_rows]]|];
    simpl in *; [done|done|lia|done].
Qed.

(** X6. A call that returns leaves on the target sheet what it held,
    followed by the processed rows in the order of the queue, and changes
    no sheet other than the source and the target. *)
Theorem process_contacts_target_appended
    spreadsheet_id source_sheet_name target_sheet_name brand_id api_key
    allocations s s' headers rows :
  source_sheet_name ≠ target_sheet_name →
  fetch_sheet_data spreadsheet_id source_sheet_name s = Some (headers, rows) →
  process_contacts spreadsheet_id source_sheet_name target_sheet_name
    brand_id api_key allocations s = (Returned, s') →
  let l' := (allocate headers rows brand_id api_key allocations s).1 in
  sheets s' !! (spreadsheet_id, target_sheet_name)
  = (λ old, old ++ processed_rows_data l')
    <$> sheets s !! (spreadsheet_id, target_sheet_name)
  ∧ ∀ k, k ≠ (spreadsheet_id, source_sheet_name) →
         k ≠ (spreadsheet_id, target_sheet_name) →
         sheets s' !! k = sheets s !! k.
Proof.
  intros Hne Hfetch Hrun l'. subst l'.
  assert (Hst : (spreadsheet_id, source_sheet_name)
                ≠ (spreadsheet_id, target_sheet_name)) by congruence.
  destruct rows as [|row rows].
  { destruct (allocate_nil headers brand_id api_key allocations s) as [-> _].
    unfold process_contacts in Hrun. rewrite Hfetch in Hrun.
    injection Hrun as <-. simpl. split; [|done].
    destruct (sheets s !! _); simpl; [|done]. by rewrite app_nil_r. }
  rewrite (process_contacts_unfold _ _ _ _ _ _ _ _ _ _ Hfetch) in Hrun.
  destruct (processed_rows_data _) as [|p ps].
  { injection Hrun as <-. simpl. rewrite lookup_insert_ne by done. split.
    - destruct (sheets s !! _); simpl; [|done]. by rewrite app_nil_r.
    - intros k Hk _. by rewrite lookup_insert_ne. }
  simpl in Hrun. rewrite lookup_insert_ne in Hrun by done.
  destruct (sheets s !! (spreadsheet_id, target_sheet_name)) as [old|];
    [|done].
  injection Hrun as <-. simpl. rewrite lookup_insert_eq. split; [done|].
  intros k Hk1 Hk2. by rewrite !lookup_insert_ne.
Qed.

(** X7. When the target sheet does not exist, a call in which no upsert
    succeeds returns all the same; a call in which an upsert succeeds
    raises, after the requests have been sent and the source sheet
    rewritten with the retained rows only, so that the processed rows
    are then on neither sheet. *)
Theorem processed_rows_lost_without_target
    spreadsheet_id source_sheet_name target_sheet_name brand_id api_key
    allocations s headers rows :
  fetch_sheet_data spreadsheet_id source_sheet_name s = Some (headers, rows) →
  sheets s !! (spreadsheet_id, target_sheet_name) = None →
  let al := allocate headers rows brand_id api_key allocations s in
  let run := process_contacts spreadsheet_id source_sheet_name
               target_sheet_name brand_id api_key allocations s in
  (processed_rows_data al.1 = [] → run.1 = Returned)
  ∧ (processed_rows_data al.1 ≠ [] →
     run.1 = SheetsError spreadsheet_id target_sheet_name
     ∧ sheets run.2 !! (spreadsheet_id, source_sheet_name)
       = Some (headers :: new_source_data headers al.1)
     ∧ sheets run.2 !! (spreadsheet_id, target_sheet_name) = None
     ∧ posted run.2 = posted al.2).
Proof.
  intros Hfetch Htarget al run. subst al run.
  pose proof (fetch_sheet_data_exists _ _ _ _ _ Hfetch) as Hsrc.
  assert (Hst : (spreadsheet_id, source_sheet_name)
                ≠ (spreadsheet_id, target_sheet_name)).
  { intros Heq. rewrite Heq, Htarget in Hsrc. by destruct Hsrc. }
  destruct rows as [|row rows].
  { destruct (allocate_nil headers brand_id api_key allocations s) as [-> _].
    unfold process_contacts. rewrite Hfetch. by split. }
  rewrite (process_contacts_unfold _ _ _ _ _ _ _ _ _ _ Hfetch).
  destruct (processed_rows_data _) as [|p ps]; [by split|].
  simpl. rewrite lookup_insert_ne, Htarget by done. simpl.
  split; [done|]. intros _.
  by rewrite lookup_insert_eq, lookup_insert_ne, Htarget.
Qed.

(** X8. What the next call will read: after a call that returns, the
    source sheet reads back as the same headers and the retained rows, in
    their order, each with the values it had under the headers; and the
    filter of the next call leaves none of them out, so every retained
    row, skipped and failed ones included, is in the next queue. *)
Theorem retained_rows_are_next_queue
    spreadsheet_id source_sheet_name target_sheet_name brand_id api_key
    allocations s s' headers rows :
  source_sheet_name ≠ target_sheet_name →
  fetch_sheet_data spreadsheet_id source_sheet_name s = Some (headers, rows) →
  process_contacts spreadsheet_id source_sheet_name target_sheet_name
    brand_id api_key allocations s = (Returned, s') →
  let l' := (allocate headers rows brand_id api_key allocations s).1 in
  let rows' :=
    (λ r, reread headers (heap l' !!! r)) <$> updated_rows_source l' in
  fetch_sheet_data spreadsheet_id source_sheet_name s' = Some (headers, rows')
  ∧ unprocessed_of rows' = seq 0 (length rows')
  ∧ ∀ d k, k ∈ headers → Py.get (reread headers d) k = Py.get d k.
Proof.
  intros Hne Hfetch Hrun l' rows'. subst l' rows'.
  split_and!; [| |intros; by apply reread_get].
  - destruct rows as [|row rows].
    + destruct (allocate_nil headers brand_id api_key allocations s)
        as [_ ->].
      unfold process_contacts in Hrun. rewrite Hfetch in Hrun.
      injection Hrun as <-. exact Hfetch.
    + pose proof (process_contacts_source _ _ _ _ _ _ _ _ _ _ _
                    Hne Hfetch Hrun) as Hsrc.
      rewrite (fetch_sheet_data_lines _ _ _ _ _ Hsrc).
      unfold new_source_data. by rewrite <-list_fmap_compose.
  - unfold unprocessed_of. apply filter_all.
    intros i [_ Hi]%elem_of_seq. simpl in Hi.
    rewrite length_fmap in Hi.
    destruct (lookup_lt_is_Some_2 _ _ Hi) as [r Hr].
    erewrite list_lookup_total_correct
      by (rewrite list_lookup_fmap, Hr; reflexivity).
    destruct (decide ("Status" ∈ headers)) as [Hin|Hout].
    + rewrite reread_get by done.
      rewrite retained_status; [by intros ?|].
      by eapply list_elem_of_lookup_2.
    + rewrite reread_get_other by done. by intros ?.
Qed.
End RunFacts.

(** X5 at a source sheet that holds its header line only. *)
Lemma process_contacts_nothing_to_read_witness :
  let E := Demo.always_ok in
  let g : Sheets := {[ ("doc", "ContactsToAdd") := [ ["Email"; "Status"] ] ]} in
  let s := Demo.start E g () in
  let run := @process_contacts E "doc" "ContactsToAdd" "ProcessedContacts"
               "brand" "key" [("L", 5%Z)] s in
  length (default [] (sheets s !! ("doc", "ContactsToAdd"))) ≤ 1
  ∧ sheets run.2 = sheets s ∧ posted run.2 = posted s
  ∧ world run.2 = world s
  ∧ run.1
    = match sheets s !! ("doc", "ContactsToAdd") with
      | Some _ => Returned
      | None => SheetsError "doc" "ContactsToAdd"
      end.
Proof.
  intros E g s run.
  assert (Hlen : length (default [] (sheets s !! ("doc", "ContactsToAdd")))
                 ≤ 1) by (vm_compute; lia).
  split; [exact Hlen|].
  exact (@process_contacts_nothing_to_read E "doc" "ContactsToAdd"
           "ProcessedContacts" "brand" "key" [("L", 5%Z)] s Hlen).
Defined.

(** X6 at the two sheets of [Demo.two_sheets] and a quota of 1. *)
Lemma process_contacts_target_appended_witness :
  let E := Demo.always_ok in
  let s := Demo.start E Demo.two_sheets () in
  let run := @process_contacts E "doc" "ContactsToAdd" "ProcessedContacts"
               "brand" "key" [("L", 1%Z)] s in
  let l' := (@allocate E ["Email"; "Status"] two_rows "brand" "key"
               [("L", 1%Z)] s).1 in
  sheets run.2 !! ("doc", "ProcessedContacts")
  = (λ old, old ++ processed_rows_data l')
    <$> sheets s !! ("doc", "ProcessedContacts")
  ∧ ∀ k, k ≠ ("doc", "ContactsToAdd") → k ≠ ("doc", "ProcessedContacts") →
         sheets run.2 !! k = sheets s !! k.
Proof.
  intros E s run l'.
  apply (@process_contacts_target_appended E "doc" "ContactsToAdd"
           "ProcessedContacts" "brand" "key" [("L", 1%Z)] s run.2
           ["Email"; "Status"] two_rows); [discriminate|by vm_compute..].
Defined.

(** X7 at a spreadsheet without its target sheet and a quota of 1. *)
Lemma processed_rows_lost_without_target_witness :
  let E := Demo.always_ok in
  let g : Sheets := delete ("doc", "ProcessedContacts") Demo.two_sheets in
  let s := Demo.start E g () in
  let al := @allocate E ["Email"; "Status"] two_rows "brand" "key"
              [("L", 1%Z)] s in
  let run := @process_contacts E "doc" "ContactsToAdd" "ProcessedContacts"
               "brand" "key" [("L", 1%Z)] s in
  (processed_rows_data al.1 = [] → run.1 = Returned)
  ∧ (processed_rows_data al.1 ≠ [] →
     run.1 = SheetsError "doc" "ProcessedContacts"
     ∧ sheets run.2 !! ("doc", "ContactsToAdd")
       = Some (["Email"; "Status"]
               :: new_source_data ["Email"; "Status"] al.1)
     ∧ sheets run.2 !! ("doc", "ProcessedContacts") = None
     ∧ posted run.2 = posted al.2).
Proof.
  intros E g s al run.
  apply (@processed_rows_lost_without_target E "doc" "ContactsToAdd"
           "ProcessedContacts" "brand" "key" [("L", 1%Z)] s
           ["Email"; "Status"] two_rows); by vm_compute.
Defined.

(** X8 at the two sheets of [Demo.two_sheets] and a quota of 0. *)
Lemma retained_rows_are_next_queue_witness :
  let E := Demo.always_ok in
  let s := Demo.start E Demo.two_sheets () in
  let run := @process_contacts E "doc" "ContactsToAdd" "ProcessedContacts"
               "brand" "key" [("L", 0%Z)] s in
  let headers := ["Email"; "Status"] in
  let l' := (@allocate E headers two_rows "brand" "key" [("L", 0%Z)] s).1 in
  let rows' :=
    (λ r, reread headers (heap l' !!! r)) <$> updated_rows_source l' in
  @fetch_sheet_data E "doc" "ContactsToAdd" run.2 = Some (headers, rows')
  ∧ unprocessed_of rows' = seq 0 (length rows')
  ∧ ∀ d k, k ∈ headers → Py.get (reread headers d) k = Py.get d k.
Proof.
  intros E s run headers l' rows'.
  apply (@retained_rows_are_next_queue E "doc" "ContactsToAdd"
           "ProcessedContacts" "brand" "key" [("L", 0%Z)] s run.2
           headers two_rows); [discriminate|by vm_compute..].
Defined.

(** ** The requests of a run *)

Section WhileEquations.
Context `{Externals}.
Variables (headers : list string) (unprocessed : list Ref).
Variables (brand_id api_key : string).

Lemma while_allocated_0 list_id count ls :
  while_allocated headers unprocessed brand_id api_key 0 list_id count ls = ls.
Proof. reflexivity. Qed.

Lemma while_allocated_S fuel list_id count l s :
  while_allocated headers unprocessed brand_id api_key (S fuel) list_id count
    (l, s)
  = if bool_decide (allocated l < count)%Z
       && bool_decide (idx l < length unprocessed)
    then while_allocated headers unprocessed brand_id api_key fuel list_id
           count (loop_body headers unprocessed brand_id api_key list_id (l, s))
    else (l, s).
Proof. reflexivity. Qed.
End WhileEquations.

Lemma served_length ns allocations :
  Forall2 (λ (n : nat) (item : string * Z), (Z.of_nat n ≤ Z.max 0 item.2)%Z)
    ns allocations →
  (Z.of_nat (length (served ns allocations)) ≤ total_quota allocations)%Z.
Proof.
  unfold served. induction 1 as [|n item ns allocations Hn _ IH]; simpl.
  - lia.
  - rewrite length_app, length_replicate. lia.
Qed.

Section Served.
Context `{Externals}.
Variables (headers : list string) (unprocessed : list Ref).
Variables (brand_id api_key : string).

Lemma while_allocated_in_range fuel list_id count l s :
  idx l ≤ length unprocessed →
  idx (while_allocated headers unprocessed brand_id api_key fuel list_id
         count (l, s)).1 ≤ length unprocessed.
Proof.
  intros Hidx.
  apply (while_allocated_ind headers unprocessed brand_id api_key
           (λ l _, idx l ≤ length unprocessed)); [|done].
  intros l1 s1 l2 s2 _ Hi _ Ht. destruct Ht; simpl; lia.
Qed.

(** One list: the requests sent for it, and why the loop stopped. *)
Lemma for_body_filled list_id count l s :
  idx l ≤ length unprocessed →
  let ls' := for_body headers unprocessed brand_id api_key (l, s)
               (list_id, count) in
  ∃ reqs,
    posted ls'.2 = posted s ++ reqs
    ∧ list_ids <$> reqs = replicate (length reqs) [list_id]
    ∧ (Z.of_nat (length reqs) ≤ Z.max 0 count)%Z
    ∧ idx l ≤ idx ls'.1 ≤ length unprocessed
    ∧ (idx ls'.1 < length unprocessed →
       Z.of_nat (length reqs) = Z.max 0 count).
Proof.
  intros Hidx ls'.
  destruct (for_body_counted headers unprocessed brand_id api_key list_id
              count l s) as [Hmono _ (reqs & Hpo & _ & Hlists & Hal & Hle)].
  fold ls' in Hmono, Hpo, Hal.
  pose proof (while_allocated_exit headers unprocessed brand_id api_key
                (length unprocessed - idx (reset_allocated l)) list_id count
                (reset_allocated l) (st_write (Allocating count list_id) s)
                (le_n _)) as Hexit.
  pose proof (while_allocated_in_range
                (length unprocessed - idx (reset_allocated l)) list_id count
                (reset_allocated l) (st_write (Allocating count list_id) s)
                Hidx) as Hin.
  change (while_allocated _ _ _ _ _ _ _ _) with ls' in Hexit, Hin.
  simpl in Hexit. exists reqs. split_and!; [done| |done|done|done|].
  - clear -Hlists. induction Hlists as [|q reqs Hq _ IH]; csimpl; [done|].
    by rewrite Hq, IH.
  - intros Hlt. lia.
Qed.

(** All the lists, in order. *)
Lemma for_allocations_served allocations l s :
  idx l ≤ length unprocessed →
  let ls' := for_allocations headers unprocessed brand_id api_key allocations
               (l, s) in
  ∃ reqs ns,
    posted ls'.2 = posted s ++ reqs
    ∧ list_ids <$> reqs = served ns allocations
    ∧ Forall2 (λ (n : nat) (item : string * Z),
                 (Z.of_nat n ≤ Z.max 0 item.2)%Z) ns allocations
    ∧ idx l ≤ idx ls'.1 ≤ length unprocessed
    ∧ (idx ls'.1 < length unprocessed →
       Forall2 (λ (n : nat) (item : string * Z),
                  Z.of_nat n = Z.max 0 item.2) ns allocations).
Proof.
  revert l s.
  induction allocations as [|[list_id count] allocations IH];
    intros l s Hidx ls'.
  { exists [], []. subst ls'. simpl. rewrite app_nil_r.
    split_and!; [done|done|constructor|lia|lia|constructor]. }
  subst ls'. rewrite for_allocations_cons.
  destruct (for_body_filled list_id count l s Hidx)
    as (reqs1 & Hpo1 & Hl1 & Hle1 & Hidx1 & Hfull1).
  destruct (for_body headers unprocessed brand_id api_key (l, s)
              (list_id, count)) as [l1 s1]; simpl in *.
  destruct (IH l1 s1 ltac:(lia))
    as (reqs2 & ns & Hpo2 & Hl2 & Hle2 & Hidx2 & Hfull2).
  exists (reqs1 ++ reqs2), (length reqs1 :: ns).
  split_and!.
  - by rewrite Hpo2, Hpo1, app_assoc.
  - rewrite fmap_app, Hl1, Hl2. done.
  - by constructor.
  - lia.
  - lia.
  - intros Hlt. constructor; [apply Hfull1; lia|by apply Hfull2].
Qed.
End Served.

Section RunServed.
Context `{Externals}.
Variables (headers : list string) (rows : list Row).
Variables (brand_id api_key : string) (allocations : list (string * Z)).
Variable (s : State).

Lemma allocate_served :
  let ls' := allocate headers rows brand_id api_key allocations s in
  let cursor :=
    idx (after_for headers rows brand_id api_key allocations s).1 in
  ∃ reqs ns,
    posted ls'.2 = posted s ++ reqs
    ∧ list_ids <$> reqs = served ns allocations
    ∧ Forall2 (λ (n : nat) (item : string * Z),
                 (Z.of_nat n ≤ Z.max 0 item.2)%Z) ns allocations
    ∧ length reqs ≤ cursor ≤ length (unprocessed_of rows)
    ∧ (cursor < length (unprocessed_of rows) →
       Forall2 (λ (n : nat) (item : string * Z),
                  Z.of_nat n = Z.max 0 item.2) ns allocations).
Proof.
  intros ls' cursor. subst ls' cursor. rewrite allocate_after_for; simpl.
  destruct (after_for_inv headers rows brand_id api_key allocations s)
    as [_ _ _ _ (prefs & reqs0 & _ & _ & _ & _ & Hpo0 & Hem0)].
  unfold after_for in *.
  destruct (for_allocations_served headers (unprocessed_of rows) brand_id
              api_key allocations
              {| heap := rows; idx := 0; allocated := 0;
                 processed_rows_data := []; updated_rows_source := [] |}
              s ltac:(simpl; lia))
    as (reqs & ns & Hpo & Hl & Hle & Hidx & Hfull).
  exists reqs, ns. split_and!; [done..| |lia|done].
  assert (reqs0 = reqs) as ->.
  { apply (app_inv_head (posted s)). rewrite <-Hpo0. exact Hpo. }
  apply (f_equal length) in Hem0. rewrite length_fmap in Hem0.
  rewrite Hem0. etrans; [apply length_filter|].
  rewrite length_fmap, length_take. lia.
Qed.
End RunServed.

(** X9. Earlier lists are served first: the requests of a run are, in
    the order in which they are sent, a block for the first list of the
    allocations, then a block for the second, and so on, and the block of
    a list holds at most [max(0, quota)] requests. *)
Theorem requests_follow_allocations `{Externals}
    headers rows brand_id api_key allocations s :
  let ls' := allocate headers rows brand_id api_key allocations s in
  ∃ ns,
    list_ids <$> drop (length (posted s)) (posted ls'.2)
    = served ns allocations
    ∧ Forall2 (λ (n : nat) (item : string * Z),
                 (Z.of_nat n ≤ Z.max 0 item.2)%Z) ns allocations.
Proof.
  intros ls'.
  destruct (allocate_served headers rows brand_id api_key allocations s)
    as (reqs & ns & Hpo & Hl & Hle & _).
  exists ns. fold ls' in Hpo. by rewrite Hpo, drop_app_length.
Qed.

(** X10. A run sends at most one request for each row of the queue and
    at most [sum(max(0, quota))] requests in all. *)
Theorem requests_within_queue_and_quotas `{Externals}
    headers rows brand_id api_key allocations s :
  let ls' := allocate headers rows brand_id api_key allocations s in
  let sent := length (posted ls'.2) - length (posted s) in
  length (posted s) ≤ length (posted ls'.2)
  ∧ sent ≤ length (unprocessed_of rows)
  ∧ (Z.of_nat sent ≤ total_quota allocations)%Z.
Proof.
  intros ls' sent. subst sent.
  destruct (allocate_served headers rows brand_id api_key allocations s)
    as (reqs & ns & Hpo & Hl & Hle & Hlen & _).
  fold ls' in Hpo. rewrite Hpo, length_app.
  pose proof (served_length ns allocations Hle) as Hsum.
  rewrite <-Hl, length_fmap in Hsum.
  split_and!; [lia|lia|].
  replace (length (posted s) + length reqs - length (posted s))
    with (length reqs) by lia. done.
Qed.

(** X11. The loops stop early only on full quotas: after the [for], the
    cursor is at the end of the queue, or every list has been sent
    exactly [max(0, quota)] requests. *)
Theorem queue_exhausted_or_quotas_filled `{Externals}
    headers rows brand_id api_key allocations s :
  let ls' := allocate headers rows brand_id api_key allocations s in
  let cursor :=
    idx (after_for headers rows brand_id api_key allocations s).1 in
  cursor = length (unprocessed_of rows)
  ∨ ∃ ns,
      list_ids <$> drop (length (posted s)) (posted ls'.2)
      = served ns allocations
      ∧ Forall2 (λ (n : nat) (item : string * Z),
                   Z.of_nat n = Z.max 0 item.2) ns allocations.
Proof.
  intros ls' cursor.
  destruct (allocate_served headers rows brand_id api_key allocations s)
    as (reqs & ns & Hpo & Hl & _ & Hlen & Hfull).
  fold ls' in Hpo. fold cursor in Hlen, Hfull.
  destruct (decide (cursor < length (unprocessed_of rows))) as [Hlt|Hge];
    [right|left; lia].
  exists ns. split; [|by apply Hfull]. by rewrite Hpo, drop_app_length.
Qed.

(** What every request of lines 92-106 looks like, when it is built for
    a row as lines 152-178 do. *)
Lemma request_for_fields brand_id api_key list_id (d : Row) :
  let req := request_for brand_id api_key list_id d in
  email req = Py.strip (Py.get d "Email")
  ∧ list_ids req = [list_id]
  ∧ x_api_key req = api_key
  ∧ validate_param req = "false"
  ∧ unsubscribe_all req = false
  ∧ ∀ fv, fv ∈ field_values req →
          fv.1 ∈ ["first_name"; "last_name"; "tags"] ∧ fv.2 ≠ "".
Proof.
  intros req. subst req. unfold request_for, upsert_request; simpl.
  split_and!; [done..|]. intros fv. unfold field_values_of.
  rewrite !elem_of_app.
  destruct (Py.truthy (Py.strip (Py.get d "First Name"))) eqn:H1,
           (Py.truthy (Py.strip (Py.get d "Last Name"))) eqn:H2,
           (Py.truthy (Py.strip (Py.get d "Tags"))) eqn:H3;
    try apply truthy_true in H1; try apply truthy_true in H2;
    try apply truthy_true in H3;
    rewrite ?list_elem_of_singleton, ?elem_of_nil;
    intros Hfv; destruct_or! Hfv; try done; subst fv; simpl;
    (split; [repeat constructor|done]).
Qed.

Section Sent.
Context `{Externals}.
Variables (headers : list string) (unprocessed : list Ref).
Variables (brand_id api_key : string).

Lemma loop_body_posted list_id l s :
  let d := heap l !!! (unprocessed !!! idx l) in
  posted (loop_body headers unprocessed brand_id api_key list_id (l, s)).2
  = posted s
    ++ (if Py.truthy (Py.strip (Py.get d "Email"))
        then [request_for brand_id api_key list_id d] else []).
Proof.
  intros d. subst d. unfold loop_body.
  destruct (Py.truthy _); simpl negb; cbv iota.
  - pose proof (upsert_state
      (Py.strip (Py.get (heap l !!! (unprocessed !!! idx l)) "Email"))
      brand_id api_key list_id
      (Some (field_values_of
         (Py.strip (Py.get (heap l !!! (unprocessed !!! idx l)) "First Name"))
         (Py.strip (Py.get (heap l !!! (unprocessed !!! idx l)) "Last Name"))
         (Py.strip (Py.get (heap l !!! (unprocessed !!! idx l)) "Tags"))))
      false false s) as (_ & _ & Hpo).
    by destruct (upsert_contact_in_bigmailer _ _ _ _ _ _ _ _) as [[j|e] s'].
  - simpl. by rewrite app_nil_r.
Qed.

(** Induction over the turns of lines 144-191, on the loop body
    itself. *)
Lemma for_allocations_body_ind (P : Locals → State → Prop) :
  (∀ list_id l s,
      P l s → idx l < length unprocessed →
      P (loop_body headers unprocessed brand_id api_key list_id (l, s)).1
        (loop_body headers unprocessed brand_id api_key list_id (l, s)).2) →
  (∀ l s m, P l s → P (reset_allocated l) (st_write m s)) →
  ∀ allocations l s,
    P l s →
    P (for_allocations headers unprocessed brand_id api_key allocations
         (l, s)).1
      (for_allocations headers unprocessed brand_id api_key allocations
         (l, s)).2.
Proof.
  intros Hturn Hreset.
  assert (Hwhile : ∀ list_id count fuel l s,
    P l s →
    P (while_allocated headers unprocessed brand_id api_key fuel list_id
         count (l, s)).1
      (while_allocated headers unprocessed brand_id api_key fuel list_id
         count (l, s)).2).
  { intros list_id count fuel.
    induction fuel as [|fuel IH]; intros l s HP; [done|].
    rewrite while_allocated_S.
    destruct (bool_decide (allocated l < count)%Z); [|done].
    destruct (bool_decide (idx l < length unprocessed)) eqn:Hi; [|done].
    simpl. apply bool_decide_eq_true in Hi.
    pose proof (Hturn list_id l s HP Hi) as HP'.
    destruct (loop_body _ _ _ _ _ _) as [l' s']. by apply IH. }
  intros allocations.
  induction allocations as [|[list_id count] allocations IH];
    intros l s HP; [done|].
  rewrite for_allocations_cons.
  change (for_body headers unprocessed brand_id api_key (l, s)
            (list_id, count))
    with (while_allocated headers unprocessed brand_id api_key
            (length unprocessed - idx (reset_allocated l)) list_id count
            (reset_allocated l, st_write (Allocating count list_id) s)).
  pose proof (Hwhile list_id count
                (length unprocessed - idx (reset_allocated l))
                (reset_allocated l) (st_write (Allocating count list_id) s)
                (Hreset _ _ _ HP)) as Hw.
  destruct (while_allocated _ _ _ _ _ _ _ _) as [l' s']. by apply IH.
Qed.
End Sent.

Section SentFacts.
Context `{Externals}.
Variables (headers : list string) (rows : list Row).
Variables (brand_id api_key : string) (allocations : list (string * Z)).
Variable (s : State).

(** The requests sent when the cursor is at [idx l]: one for each row
    before the cursor that has an e-mail address, built from the row as
    it was read. *)
Lemma after_for_sent :
  let mid := after_for headers rows brand_id api_key allocations s in
  ∃ items : list (Ref * string),
    posted mid.2
    = posted s
      ++ ((λ it, request_for brand_id api_key it.2 (rows !!! it.1))
          <$> items)
    ∧ items.*1
      = filter (λ r, email_of rows r ≠ "")
          (take (idx mid.1) (unprocessed_of rows)).
Proof.
  intros mid. subst mid. unfold after_for.
  pose (P := λ (l : Locals) (s' : State),
    Inv headers (unprocessed_of rows) rows s l s'
    ∧ ∃ items : list (Ref * string),
        posted s'
        = posted s
          ++ ((λ it, request_for brand_id api_key it.2 (rows !!! it.1))
              <$> items)
        ∧ items.*1
          = filter (λ r, email_of rows r ≠ "")
              (take (idx l) (unprocessed_of rows))).
  enough (HP : P (for_allocations headers (unprocessed_of rows) brand_id
                    api_key allocations
                    ({| heap := rows; idx := 0; allocated := 0;
                        processed_rows_data := [];
                        updated_rows_source := [] |}, s)).1
                 (for_allocations headers (unprocessed_of rows) brand_id
                    api_key allocations
                    ({| heap := rows; idx := 0; allocated := 0;
                        processed_rows_data := [];
                        updated_rows_source := [] |}, s)).2)
    by apply HP.
  apply for_allocations_body_ind.
  - intros list_id l s1 [Hinv (items & Hpo & Hfst)] Hi.
    pose proof (loop_body_turn headers (unprocessed_of rows) brand_id api_key
                  list_id l s1) as Ht.
    pose proof (loop_body_posted headers (unprocessed_of rows) brand_id
                  api_key list_id l s1) as Hpost.
    destruct (cursor_take (unprocessed_of rows) rows (unprocessed_NoDup rows)
                (unprocessed_valid rows) (idx l) Hi) as (Htake & Hfresh & _).
    pose proof (inv_untouched _ _ _ _ _ _ Hinv _ Hfresh) as Hrow.
    assert (Hidx : idx (loop_body headers (unprocessed_of rows) brand_id
                          api_key list_id (l, s1)).1 = S (idx l)).
    { by destruct Ht. }
    split.
    + eapply turn_inv; [apply unprocessed_NoDup|apply unprocessed_valid|
                        exact Hinv|exact Hi|exact Ht].
    + cbv zeta in Hpost. rewrite Hrow in Hpost. rewrite Hpost, Hidx, Htake.
      rewrite filter_app.
      destruct (Py.truthy _) eqn:Hemail.
      * exists (items ++ [(unprocessed_of rows !!! idx l, list_id)]).
        rewrite !fmap_app, Hpo, Hfst, <-app_assoc.
        apply truthy_true in Hemail.
        by rewrite filter_cons_True, filter_nil.
      * exists items. rewrite Hpo, Hfst, app_nil_r.
        apply truthy_false in Hemail.
        rewrite filter_cons_False, filter_nil, app_nil_r; [done|].
        unfold email_of. rewrite Hemail. intros Hne. by apply Hne.
  - intros l s1 m [Hinv Hsent]. split; [by apply reset_inv|done].
  - split.
    + apply init_inv.
    + exists []. simpl. by rewrite app_nil_r.
Qed.
End SentFacts.

(** X12. Every request of a run is for one row of the queue that has an
    e-mail address, and is built from that row as it was read from the
    sheet; the rows of the requests are, in order and without
    repetition, the rows with an address that the loops of the lists
    took: no row is sent twice, to the same list or to another.  No
    request has an empty address or an empty field, and none asks for
    validation or to unsubscribe. *)
Theorem requests_built_from_rows `{Externals}
    headers rows brand_id api_key allocations s :
  let ls' := allocate headers rows brand_id api_key allocations s in
  let cursor :=
    idx (after_for headers rows brand_id api_key allocations s).1 in
  ∃ items : list (Ref * string),
    posted ls'.2
    = posted s
      ++ ((λ it, request_for brand_id api_key it.2 (rows !!! it.1))
          <$> items)
    ∧ items.*1
      = filter (λ r, email_of rows r ≠ "")
          (take cursor (unprocessed_of rows))
    ∧ NoDup items.*1
    ∧ ∀ req,
        req ∈ drop (length (posted s)) (posted ls'.2) →
        email req ≠ "" ∧ x_api_key req = api_key
        ∧ validate_param req = "false" ∧ unsubscribe_all req = false
        ∧ ∀ fv, fv ∈ field_values req →
                fv.1 ∈ ["first_name"; "last_name"; "tags"] ∧ fv.2 ≠ "".
Proof.
  intros ls' cursor. subst ls' cursor. rewrite allocate_after_for; simpl.
  destruct (after_for_sent headers rows brand_id api_key allocations s)
    as (items & Hpo & Hfst).
  exists items. split_and!; [done|done| |].
  - rewrite Hfst. apply NoDup_filter.
    pose proof (unprocessed_NoDup rows) as Hnd.
    pose proof (sublist_take (unprocessed_of rows)
                  (idx (after_for headers rows brand_id api_key allocations
                          s).1)) as Hsub.
    by eapply sublist_NoDup.
  - intros req. rewrite Hpo, drop_app_length.
    intros ((r & list_id) & -> & Hit)%list_elem_of_fmap.
    change (request_for brand_id api_key (r, list_id).2
              (rows !!! (r, list_id).1))
      with (request_for brand_id api_key list_id (rows !!! r)).
    destruct (request_for_fields brand_id api_key list_id (rows !!! r))
      as (Hem & _ & Hkey & Hval & Hunsub & Hfv).
    split_and!; [|done..].
    rewrite Hem.
    assert (Hr : r ∈ items.*1).
    { apply list_elem_of_fmap. by exists (r, list_id). }
    rewrite Hfst in Hr. by apply list_elem_of_filter in Hr as [Hr _].
Qed.

(** ** Statuses and failures *)

(** X13. The two outputs are told apart by the status: in a Status
    column, every processed row holds a status that begins
    "Successfully added", and no retained row does. *)
Theorem outputs_split_by_status `{Externals}
    headers rows brand_id api_key allocations s :
  let l' := (allocate headers rows brand_id api_key allocations s).1 in
  ∀ i, headers !! i = Some "Status" →
    (∀ row, row ∈ processed_rows_data l' →
       ∃ status, row !! i = Some status
                 ∧ Py.startswith status "Successfully added" = true)
    ∧ (∀ row, row ∈ new_source_data headers l' →
         ∃ status, row !! i = Some status
                   ∧ Py.startswith status "Successfully added" = false).
Proof.
  intros l' i Hi. subst l'.
  destruct (allocate_routed headers rows brand_id api_key allocations s)
    as (prefs & Hproc & _ & Hadd).
  split.
  - intros row Hrow. rewrite Hproc in Hrow.
    apply list_elem_of_fmap in Hrow as (r & -> & Hr).
    rewrite Forall_forall in Hadd.
    destruct (Hadd r Hr) as (_ & date & list_id & Hrow).
    eexists. split; [by apply row_in_order_lookup|].
    by rewrite Hrow, get_insert_status.
  - intros row (r & -> & Hr)%list_elem_of_fmap.
    eexists. split; [by apply row_in_order_lookup|].
    by apply retained_status.
Qed.

(** X13 at the Status column of a run that processes one row of two. *)
Lemma outputs_split_by_status_witness :
  let E := Demo.always_ok in
  let headers := ["Email"; "Status"] in
  let rows : list Row := [ {["Email" := "a@x.com"]}; {["Email" := ""]} ] in
  let l' := (@allocate E headers rows "brand" "key" [("L", 2%Z)]
               (Demo.start E ∅ ())).1 in
  headers !! 1 = Some "Status"
  ∧ (∀ row, row ∈ processed_rows_data l' →
       ∃ status, row !! 1 = Some status
                 ∧ Py.startswith status "Successfully added" = true)
  ∧ (∀ row, row ∈ new_source_data headers l' →
       ∃ status, row !! 1 = Some status
                 ∧ Py.startswith status "Successfully added" = false).
Proof.
  intros E headers rows l'. split; [reflexivity|].
  apply (@outputs_split_by_status E headers rows "brand" "key" [("L", 2%Z)]
           (Demo.start E ∅ ()) 1).
  reflexivity.
Defined.

Section UpsertFacts.
Context `{Externals}.

(** X14. A call of [upsert_contact_in_bigmailer] succeeds exactly when
    [requests.post] returns a response with status 200 whose body
    decodes as JSON; an exception of [requests.post] or of the decoding
    is a failure of the call.  Success or not, the call sends one request
    and touches no sheet. *)
Theorem upsert_succeeds_iff
    email brand_id api_key list_id field_values validate unsubscribe_all s :
  let req := upsert_request email brand_id api_key list_id
               (default [] field_values) validate unsubscribe_all in
  let out := upsert_contact_in_bigmailer email brand_id api_key list_id
               field_values validate unsubscribe_all s in
  (∀ j, out.1 = inl j
        ↔ ∃ response,
            (requests_post req (world s)).1 = inl response
            ∧ status_code response = 200%Z
            ∧ response_json response = inl j)
  ∧ posted out.2 = posted s ++ [req]
  ∧ world out.2 = (requests_post req (world s)).2
  ∧ sheets out.2 = sheets s.
Proof.
  intros req out. subst req out. unfold upsert_contact_in_bigmailer.
  destruct (requests_post _ _) as [[response|msg] w]; simpl.
  - destruct (Z.eqb_spec (status_code response) 200) as [Hcode|Hcode].
    + destruct (response_json response) as [j'|msg] eqn:Hjson; simpl.
      * split_and!; [|done..]. intros j. split.
        -- intros [= <-]. by exists response.
        -- intros (? & [= <-] & _ & ?). congruence.
      * split_and!; [|done..]. intros j. split; [done|].
        intros (? & [= <-] & _ & ?). congruence.
    + split_and!; [|done..]. intros j. split; [done|].
      by intros (? & [= <-] & ? & _).
  - split_and!; [|done..]. intros j. split; [done|].
    by intros (? & ? & _).
Qed.

Variables (headers : list string) (unprocessed : list Ref).
Variables (brand_id api_key : string).

(** X15. The three kinds of failure are recorded alike.  When the call
    for the row under the cursor fails, because [requests.post] raised,
    or the status was not 200, or the status was 200 and the body did
    not decode, the row is retained with the status "Error: " followed by
    the reason, nothing is added to the processed rows, and the row
    counts toward the quota. *)
Theorem failed_turn_status list_id l s reply w reason :
  let ref := unprocessed !!! idx l in
  let d := heap l !!! ref in
  ref < length (heap l) →
  Py.strip (Py.get d "Email") ≠ "" →
  requests_post (request_for brand_id api_key list_id d) (world s)
  = (reply, w) →
  reply = inr reason
  ∨ (∃ response,
       reply = inl response ∧ status_code response ≠ 200%Z
       ∧ reason = "Upsert failed with " +:+ pretty (status_code response)
                  +:+ ": " +:+ text response)
  ∨ (∃ response,
       reply = inl response ∧ status_code response = 200%Z
       ∧ response_json response = inr reason) →
  let ls' := loop_body headers unprocessed brand_id api_key list_id (l, s) in
  heap ls'.1 !!! ref = <["Status" := "Error: " +:+ reason]> d
  ∧ updated_rows_source ls'.1 = updated_rows_source l ++ [ref]
  ∧ processed_rows_data ls'.1 = processed_rows_data l
  ∧ allocated ls'.1 = (allocated l + 1)%Z
  ∧ idx ls'.1 = S (idx l)
  ∧ posted ls'.2 = posted s ++ [request_for brand_id api_key list_id d].
Proof.
  intros ref d Href Hfull Hpost Hkind ls'.
  assert (∃ e, answer reply = inr e ∧ str e = reason) as (e & He & <-).
  { destruct Hkind as [->|[(response & -> & Hcode & ->)
                          |(response & -> & Hcode & Hjson)]]; simpl.
    - by eexists.
    - apply Z.eqb_neq in Hcode. rewrite Hcode. by eexists.
    - rewrite Hcode, Hjson; simpl. by eexists. }
  subst ls'.
  rewrite (loop_body_failed headers unprocessed brand_id api_key list_id l s
             reply w e Hfull Hpost He); simpl.
  split_and!; [|done..]. by apply set_status_lookup.
Qed.
End UpsertFacts.

(** X15 at a request that gets a 500. *)
Lemma failed_turn_status_witness :
  let E := Demo.second_fails in
  let d : Row := {["Email" := "a@x.com"]} in
  let l := @Demo.locals_141 E [d] in
  let s := Demo.start E ∅ 1 in
  let ls' := @loop_body E ["Email"; "Status"] [0] "brand" "key" "L" (l, s) in
  heap ls'.1 !!! 0
  = <["Status" := "Error: " +:+ "Upsert failed with 500: oops"]> d
  ∧ updated_rows_source ls'.1 = updated_rows_source l ++ [0]
  ∧ processed_rows_data ls'.1 = processed_rows_data l
  ∧ allocated ls'.1 = (allocated l + 1)%Z
  ∧ idx ls'.1 = S (idx l)
  ∧ posted ls'.2 = posted s ++ [request_for "brand" "key" "L" d].
Proof.
  intros E d l s.
  apply (@failed_turn_status E ["Email"; "Status"] [0] "brand" "key" "L" l s
           (inl {| status_code := 500; text := "oops" |}) 2
           "Upsert failed with 500: oops").
  - simpl. lia.
  - by vm_compute.
  - reflexivity.
  - right. left. eexists. split_and!; [reflexivity|done|by vm_compute].
Defined.

(** ** The lines written on the page *)

Lemma filter_outcomes (ms : list Message) :
  Forall (λ m, is_outcome m = true) ms →
  filter (λ m, is_outcome m) ms = ms
  ∧ filter (λ m, is_allocating m) ms = [].
Proof.
  induction 1 as [|m ms Hm _ [IH1 IH2]]; [done|].
  rewrite filter_cons_True by (by rewrite Hm).
  rewrite filter_cons_False by (destruct m; naive_solver).
  by rewrite IH1.
Qed.

Section Lines.
Context `{Externals}.
Variables (headers : list string) (unprocessed : list Ref).
Variables (brand_id api_key : string).

Lemma loop_body_written list_id l s :
  let ls' := loop_body headers unprocessed brand_id api_key list_id (l, s) in
  ∃ m,
    written ls'.2 = written s ++ [m]
    ∧ is_outcome m = true
    ∧ idx ls'.1 = S (idx l)
    ∧ length (processed_rows_data ls'.1)
      = length (processed_rows_data l) + (if is_added m then 1 else 0).
Proof.
  intros ls'. subst ls'. unfold loop_body.
  destruct (Py.truthy _); simpl negb; cbv iota.
  - pose proof (upsert_state
      (Py.strip (Py.get (heap l !!! (unprocessed !!! idx l)) "Email"))
      brand_id api_key list_id
      (Some (field_values_of
         (Py.strip (Py.get (heap l !!! (unprocessed !!! idx l)) "First Name"))
         (Py.strip (Py.get (heap l !!! (unprocessed !!! idx l)) "Last Name"))
         (Py.strip (Py.get (heap l !!! (unprocessed !!! idx l)) "Tags"))))
      false false s) as (_ & Hwr & _).
    destruct (upsert_contact_in_bigmailer _ _ _ _ _ _ _ _) as [[j|e] s'];
      simpl in *; eexists; rewrite Hwr;
      (split_and!; [done|done|done|]); simpl.
    + by rewrite length_app.
    + lia.
  - eexists. simpl. split_and!; [done|done|done|simpl; lia].
Qed.

Lemma while_allocated_written fuel list_id count l s :
  let ls' := while_allocated headers unprocessed brand_id api_key fuel
               list_id count (l, s) in
  ∃ ms,
    written ls'.2 = written s ++ ms
    ∧ Forall (λ m, is_outcome m = true) ms
    ∧ idx ls'.1 = idx l + length ms
    ∧ length (processed_rows_data ls'.1)
      = length (processed_rows_data l)
        + length (filter (λ m, is_added m) ms).
Proof.
  revert l s. induction fuel as [|fuel IH]; intros l s ls'; subst ls'.
  { exists []. rewrite while_allocated_0, app_nil_r.
    split_and!; [done|done|simpl; lia..]. }
  rewrite while_allocated_S. destruct (_ && _).
  - destruct (loop_body_written list_id l s) as (m & Hwr & Hm & Hidx & Hlen).
    destruct (loop_body headers unprocessed brand_id api_key list_id (l, s))
      as [l1 s1]; simpl in *.
    destruct (IH l1 s1) as (ms & Hwr' & Hms & Hidx' & Hlen').
    exists (m :: ms). split_and!.
    + by rewrite Hwr', Hwr, <-app_assoc.
    + by constructor.
    + simpl. lia.
    + rewrite Hlen', Hlen. destruct (is_added m) eqn:Ha.
      * rewrite filter_cons_True by (simpl; by rewrite Ha). simpl. lia.
      * rewrite filter_cons_False by (simpl; rewrite Ha; by intros ?). lia.
  - exists []. rewrite app_nil_r. split_and!; [done|done|simpl; lia..].
Qed.

Lemma for_allocations_written allocations l s :
  let ls' := for_allocations headers unprocessed brand_id api_key allocations
               (l, s) in
  ∃ ms,
    written ls'.2 = written s ++ ms
    ∧ filter (λ m, is_allocating m) ms
      = (λ item : string * Z, Allocating item.2 item.1) <$> allocations
    ∧ idx ls'.1 = idx l + length (filter (λ m, is_outcome m) ms)
    ∧ length (processed_rows_data ls'.1)
      = length (processed_rows_data l)
        + length (filter (λ m, is_added m) ms)
    ∧ Forall (λ m, is_allocating m || is_outcome m = true) ms.
Proof.
  revert l s.
  induction allocations as [|[list_id count] allocations IH]; intros l s ls'.
  { exists []. subst ls'. simpl. rewrite app_nil_r.
    split_and!; [done|done|lia|lia|done]. }
  subst ls'. rewrite for_allocations_cons.
  pose proof (while_allocated_written
                (length unprocessed - idx (reset_allocated l)) list_id count
                (reset_allocated l) (st_write (Allocating count list_id) s))
    as Hw.
  unfold for_body at 1. simpl in Hw |- *.
  destruct (while_allocated _ _ _ _ _ _ _ _) as [l1 s1]; simpl in *.
  destruct Hw as (ms1 & Hwr1 & Hms1 & Hidx1 & Hlen1).
  destruct (IH l1 s1) as (ms2 & Hwr2 & Hal2 & Hidx2 & Hlen2 & Hms2).
  destruct (filter_outcomes ms1 Hms1) as [Hout1 Hnone1].
  exists (Allocating count list_id :: ms1 ++ ms2). split_and!.
  - rewrite Hwr2, Hwr1. by rewrite <-!app_assoc.
  - rewrite filter_cons_True by done. rewrite filter_app, Hnone1, Hal2. done.
  - rewrite filter_cons_False by (by intros ?).
    rewrite filter_app, Hout1, length_app. lia.
  - rewrite filter_cons_False by (by intros ?).
    rewrite filter_app, length_app. lia.
  - constructor; [done|]. apply Forall_app. split; [|done].
    eapply Forall_impl; [exact Hms1|]. intros m Hm. simpl in Hm.
    rewrite Hm. by destruct (is_allocating m).
Qed.
End Lines.

Section Report.
Context `{Externals}.

(** X16. What a call that returns has written on the page: one
    "Allocating" line for each list, in the order of the allocations;
    one line ("✓", "✗" or "Skipped row") for each row that the loops of
    the lists took; then "Appended n" exactly when a row was processed,
    with [n] the number of "✓" lines, which is the number of processed
    rows; then "All done". *)
Theorem progress_report
    spreadsheet_id source_sheet_name target_sheet_name brand_id api_key
    allocations s s' headers rows :
  fetch_sheet_data spreadsheet_id source_sheet_name s = Some (headers, rows) →
  rows ≠ [] →
  process_contacts spreadsheet_id source_sheet_name target_sheet_name
    brand_id api_key allocations s = (Returned, s') →
  let l' := (allocate headers rows brand_id api_key allocations s).1 in
  let cursor :=
    idx (after_for headers rows brand_id api_key allocations s).1 in
  ∃ ms,
    written s'
    = written s ++ ms
      ++ closing_lines (length (filter (λ m, is_added m) ms))
           target_sheet_name
    ∧ filter (λ m, is_allocating m) ms
      = (λ item : string * Z, Allocating item.2 item.1) <$> allocations
    ∧ length (filter (λ m, is_outcome m) ms) = cursor
    ∧ length (filter (λ m, is_added m) ms) = length (processed_rows_data l')
    ∧ Forall (λ m, is_allocating m || is_outcome m = true) ms.
Proof.
  intros Hfetch Hrows Hrun l' cursor. subst l' cursor.
  destruct rows as [|row rows]; [done|]. clear Hrows.
  rewrite (process_contacts_unfold _ _ _ _ _ _ _ _ _ _ Hfetch) in Hrun.
  rewrite allocate_after_for in Hrun |- *. simpl in Hrun |- *.
  unfold after_for in *.
  destruct (for_allocations_written headers (unprocessed_of (row :: rows))
              brand_id api_key allocations
              {| heap := row :: rows; idx := 0; allocated := 0;
                 processed_rows_data := []; updated_rows_source := [] |} s)
    as (ms & Hwr & Hal & Hidx & Hlen & Hms).
  destruct (for_allocations _ _ _ _ _ _) as [l1 s1]; simpl in *.
  exists ms. split_and!; [|done|done|done|done].
  rewrite <-Hlen. destruct (processed_rows_data l1) as [|p ps].
  - injection Hrun as <-. simpl. by rewrite Hwr, <-app_assoc.
  - destruct (_ !! (spreadsheet_id, target_sheet_name)); [|done].
    injection Hrun as <-. simpl. by rewrite Hwr, <-!app_assoc.
Qed.
End Report.

(** X16 at the two sheets of [Demo.two_sheets] and a quota of 1. *)
Lemma progress_report_witness :
  let E := Demo.always_ok in
  let s := Demo.start E Demo.two_sheets () in
  let run := @process_contacts E "doc" "ContactsToAdd" "ProcessedContacts"
               "brand" "key" [("L", 1%Z)] s in
  let l' := (@allocate E ["Email"; "Status"] two_rows "brand" "key"
               [("L", 1%Z)] s).1 in
  let cursor :=
    idx (@after_for E ["Email"; "Status"] two_rows "brand" "key"
           [("L", 1%Z)] s).1 in
  two_rows ≠ []
  ∧ ∃ ms,
      written run.2
      = written s ++ ms
        ++ closing_lines (length (filter (λ m, is_added m) ms))
             "ProcessedContacts"
      ∧ filter (λ m, is_allocating m) ms
        = (λ item : string * Z, Allocating item.2 item.1) <$> [("L", 1%Z)]
      ∧ length (filter (λ m, is_outcome m) ms) = cursor
      ∧ length (filter (λ m, is_added m) ms)
        = length (processed_rows_data l')
      ∧ Forall (λ m, is_allocating m || is_outcome m = true) ms.
Proof.
  intros E s run l' cursor. split; [discriminate|].
  apply (@progress_report E "doc" "ContactsToAdd" "ProcessedContacts"
           "brand" "key" [("L", 1%Z)] s run.2 ["Email"; "Status"] two_rows);
    [by vm_compute|discriminate|by vm_compute].
Defined.

(** ** [main] and its allocations *)

Lemma dict_set_keys d k v :
  (dict_set d k v).*1 = if decide (k ∈ d.*1) then d.*1 else d.*1 ++ [k].
Proof.
  induction d as [|[k' v'] d IH]; csimpl; [done|].
  destruct (decide (k' = k)) as [->|Hne]; csimpl.
  - by rewrite decide_True by (by left).
  - rewrite IH. destruct (decide (k ∈ d.*1)) as [Hin|Hout].
    + by rewrite decide_True by (by right).
    + by rewrite decide_False by (intros [?|?]%elem_of_cons; congruence).
Qed.

Lemma dict_set_new d k v : k ∉ d.*1 → dict_set d k v = d ++ [(k, v)].
Proof.
  induction d as [|[k' v'] d IH]; csimpl; intros Hk; [done|].
  apply not_elem_of_cons in Hk as [Hne Hk].
  rewrite decide_False by congruence. by rewrite IH.
Qed.

Lemma dict_set_NoDup d k v : NoDup d.*1 → NoDup (dict_set d k v).*1.
Proof.
  intros Hnd. rewrite dict_set_keys. case_decide as Hk; [done|].
  apply NoDup_app. split_and!; [done| |apply NoDup_singleton].
  intros x Hx ->%list_elem_of_singleton. done.
Qed.

Lemma dict_set_items d k v x :
  x ∈ dict_set d k v → x ∈ d ∨ x = (k, v).
Proof.
  induction d as [|[k' v'] d IH]; csimpl.
  - intros ->%list_elem_of_singleton. by right.
  - destruct (decide (k' = k)) as [->|Hne].
    + intros [->|Hx]%elem_of_cons; [by right|left; by right].
    + intros [->|Hx]%elem_of_cons; [left; by left|].
      destruct (IH Hx) as [?|?]; [left; by right|by right].
Qed.

Lemma dict_set_total d k v :
  (total_quota (dict_set d k v) ≤ total_quota d + Z.max 0 v)%Z.
Proof.
  induction d as [|[k' v'] d IH]; csimpl; [lia|].
  destruct (decide (k' = k)); csimpl; lia.
Qed.

Lemma dict_literal_general (items d : list (string * Z)) :
  let d' := foldl (λ d kv, dict_set d kv.1 kv.2) d items in
  (NoDup d.*1 → NoDup d'.*1)
  ∧ (NoDup (d.*1 ++ items.*1) → d' = d ++ items)
  ∧ (∀ x, x ∈ d' → x ∈ d ∨ x ∈ items)
  ∧ (total_quota d' ≤ total_quota d + total_quota items)%Z.
Proof.
  revert d. induction items as [|[k v] items IH]; intros d; csimpl.
  - split_and!; [done|intros _; by rewrite app_nil_r|intros; by left|lia].
  - destruct (IH (dict_set d k v)) as (Hnd & Heq & Hin & Hsum).
    split_and!.
    + intros Hd. by apply Hnd, dict_set_NoDup.
    + intros Hd. apply NoDup_app in Hd as (Hd1 & Hd2 & Hd3).
      apply NoDup_cons in Hd3 as [Hk Hd3].
      assert (Hfresh : k ∉ d.*1).
      { intros Hk'. apply (Hd2 k Hk'). by left. }
      rewrite Heq.
      * rewrite dict_set_new by done. by rewrite <-app_assoc.
      * rewrite dict_set_new, fmap_app by done. csimpl.
        rewrite <-app_assoc. csimpl. apply NoDup_app. split_and!; [done| |].
        -- intros x Hx. apply Hd2 in Hx. done.
        -- by apply NoDup_cons.
    + intros x Hx. destruct (Hin x Hx) as [Hx'|Hx']; [|right; by right].
      destruct (dict_set_items _ _ _ _ Hx') as [? | ->];
        [by left|right; by left].
    + pose proof (dict_set_total d k v). lia.
Qed.

Lemma total_quota_nonneg allocations : (0 ≤ total_quota allocations)%Z.
Proof. induction allocations; csimpl; lia. Qed.

Lemma dict_set_items_NoDup d k v x :
  NoDup d.*1 → x ∈ dict_set d k v → x = (k, v) ∨ (x ∈ d ∧ x.1 ≠ k).
Proof.
  induction d as [|[k' v'] d IH]; csimpl; intros Hnd.
  - intros ->%list_elem_of_singleton. by left.
  - apply NoDup_cons in Hnd as [Hfresh Hnd].
    destruct (decide (k' = k)) as [->|Hne].
    + intros [->|Hx]%elem_of_cons; [by left|right].
      split; [by right|]. intros <-. apply Hfresh.
      by apply list_elem_of_fmap_2.
    + intros [->|Hx]%elem_of_cons; [right; split; [by left|done]|].
      destruct (IH Hnd Hx) as [?|[? ?]]; [by left|right].
      split; [by right|done].
Qed.

(** Every item of a dict display is the last pair written for its key. *)
Lemma dict_literal_last items x :
  x ∈ dict_literal items →
  ∃ i, items !! i = Some x ∧ x.1 ∉ (drop (S i) items).*1.
Proof.
  unfold dict_literal. revert x.
  induction items as [|[k v] items IH] using rev_ind; intros x.
  { by intros ?%elem_of_nil. }
  rewrite foldl_snoc. csimpl. intros Hx.
  apply dict_set_items_NoDup in Hx as [->|[Hx Hne]].
  - exists (length items). split.
    + by rewrite lookup_app_r, Nat.sub_diag by lia.
    + rewrite drop_ge by (rewrite length_app; simpl; lia).
      by intros ?%elem_of_nil.
  - destruct (IH x Hx) as (i & Hi & Hlast). exists i.
    pose proof (lookup_lt_Some _ _ _ Hi) as Hlt. split.
    + by rewrite lookup_app_l.
    + rewrite drop_app_le, fmap_app by lia. csimpl.
      intros [?|Hk%list_elem_of_singleton]%elem_of_app; done.
  - destruct (dict_literal_general items []) as (Hnd & _).
    apply Hnd. constructor.
Qed.

(** X17. The allocations that [main] builds have distinct list
    identifiers.  Each entry is the last of the six pairs written for its
    identifier: when two secrets name the same list, the count entered
    for the later one replaces the earlier one.  When the six
    identifiers are distinct, the allocations are the six lists in the
    order MAIN, WARMING1, ..., WARMING5, each with its own count. *)
Theorem main_allocations_keys secrets inputs :
  let pairs := allocation_pairs secrets inputs in
  NoDup (main_allocations secrets inputs).*1
  ∧ (∀ item, item ∈ main_allocations secrets inputs →
       ∃ i, pairs !! i = Some item ∧ item.1 ∉ (drop (S i) pairs).*1)
  ∧ (NoDup pairs.*1 → main_allocations secrets inputs = pairs).
Proof.
  intros pairs. unfold main_allocations.
  destruct (dict_literal_general pairs []) as (Hnd & Heq & _).
  split_and!.
  - apply Hnd. constructor.
  - apply dict_literal_last.
  - intros Hd. by apply Heq.
Qed.

Section MainFacts.
Context `{Externals}.

(** A call sends at most [sum(max(0, quota))] requests. *)
Lemma process_contacts_sent
    spreadsheet_id source_sheet_name target_sheet_name brand_id api_key
    allocations s :
  let run := process_contacts spreadsheet_id source_sheet_name
               target_sheet_name brand_id api_key allocations s in
  ∃ reqs, posted run.2 = posted s ++ reqs
          ∧ (Z.of_nat (length reqs) ≤ total_quota allocations)%Z.
Proof.
  intros run. subst run.
  pose proof (total_quota_nonneg allocations) as Hpos.
  destruct (fetch_sheet_data spreadsheet_id source_sheet_name s)
    as [[headers [|row rows]]|] eqn:Hfetch.
  - unfold process_contacts. rewrite Hfetch. exists [].
    by rewrite app_nil_r.
  - rewrite (process_contacts_unfold _ _ _ _ _ _ _ _ _ _ Hfetch).
    destruct (allocate_served headers (row :: rows) brand_id api_key
                allocations s) as (reqs & ns & Hpo & Hl & Hle & _).
    pose proof (served_length ns allocations Hle) as Hsum.
    rewrite <-Hl, length_fmap in Hsum.
    exists reqs. split; [|done].
    destruct (processed_rows_data _); [done|].
    by destruct (sheets _ !! _).
  - unfold process_contacts. rewrite Hfetch. exists [].
    by rewrite app_nil_r.
Qed.

(** X18. What a press of the button can cost.  Without a press, or when
    the service cannot be built, [main] sends no request and changes no
    sheet.  With counts within the bounds of the number inputs, [main]
    sends at most "Total requested" requests, and so at most 59994. *)
Theorem main_sends_at_most_total_requested
    secrets service_built inputs s :
  let out := main secrets service_built inputs s in
  (run_allocation inputs && service_built = false → out.2 = s)
  ∧ (in_bounds inputs →
     ∃ reqs,
       posted out.2 = posted s ++ reqs
       ∧ (Z.of_nat (length reqs) ≤ total_requested inputs ≤ 59994)%Z).
Proof.
  intros out. subst out. unfold main. split.
  - destruct service_built, (run_allocation inputs); simpl; done.
  - intros Hin.
    assert (Hbounds :
      (total_quota (allocation_pairs secrets inputs) = total_requested inputs
       ∧ 0 ≤ total_requested inputs ≤ 59994)%Z).
    { unfold in_bounds in Hin. rewrite !Forall_cons in Hin. simpl in Hin.
      destruct Hin as (? & ? & ? & ? & ? & ? & _).
      unfold total_requested, allocation_pairs, total_quota; simpl.
      rewrite !Z.max_r by lia. lia. }
    destruct Hbounds as [Htotal Hrange].
    destruct service_built; simpl;
      [|exists []; split; [by rewrite app_nil_r|simpl; lia]].
    destruct (run_allocation inputs);
      [|exists []; split; [by rewrite app_nil_r|simpl; lia]].
    destruct (process_contacts_sent (SPREADSHEET_ID secrets) "ContactsToAdd"
                "ProcessedContacts" (BRAND_ID secrets) (API_KEY secrets)
                (main_allocations secrets inputs) s)
      as (reqs & Hpo & Hle).
    destruct (process_contacts _ _ _ _ _ _ _) as [c s']; simpl in Hpo |- *.
    exists reqs. split; [done|].
    destruct (dict_literal_general (allocation_pairs secrets inputs) [])
      as (_ & _ & _ & Hsum).
    cbv zeta in Hsum. change (total_quota []) with 0%Z in Hsum.
    unfold main_allocations, dict_literal in Hle. lia.
Qed.
End MainFacts.

(** X18 at a press of the button with counts 2 and 1 for two lists. *)
Lemma main_sends_at_most_total_requested_witness :
  let E := Demo.always_ok in
  let secrets :=
    {| BRAND_ID := "brand"; API_KEY := "key"; MAIN := "L0";
       WARMING1 := "L1"; WARMING2 := "L2"; WARMING3 := "L3";
       WARMING4 := "L4"; WARMING5 := "L5"; SPREADSHEET_ID := "doc" |} in
  let inputs :=
    {| main_count := 2; w1_count := 1; w2_count := 0; w3_count := 0;
       w4_count := 0; w5_count := 0; run_allocation := true |} in
  let s := Demo.start E Demo.two_sheets () in
  let out := @main E secrets true inputs s in
  in_bounds inputs
  ∧ (run_allocation inputs && true = false → out.2 = s)
  ∧ (in_bounds inputs →
     ∃ reqs,
       posted out.2 = posted s ++ reqs
       ∧ (Z.of_nat (length reqs) ≤ total_requested inputs ≤ 59994)%Z).
Proof.
  intros E secrets inputs s out. split.
  - unfold in_bounds. repeat constructor; by vm_compute.
  - exact (@main_sends_at_most_total_requested E secrets true inputs s).
Defined.
